(** * KidsGuard: the danger classifier, the Trio client and the route layer

    A shallow embedding of [src/app.py] and [src/trio_client.py].

    Conventions of the embedding.
    - A Python [str] is a [string]; a character stands for the code point
      of the same number, so the strings of the model are the Python
      strings over U+0000..U+00FF.  [str.lower], [str.strip] and the other
      string methods are written out for that range.
    - A value that went through JSON (a request body, an upstream reply, a
      stored record) is a [json]; numbers are integers.  A Python [dict]
      with string keys is the list of its items in insertion order.
    - A Python exception is a [Raise] outcome; handlers run in a state and
      exception monad over the in-memory stores of [app.py].
    - [json.loads], [datetime.utcnow().isoformat()], [uuid.uuid4()] and the
      formatting of f-strings are library calls: the class [PyLib] is their
      interface and the handlers are written over any instance of it.
    - What the outside world answers (the reply of an HTTP call, the lines
      of a streamed body) is an argument of the function that asks. *)

From Stdlib Require Import ZArith Ascii.
From stdpp Require Import base option list strings pretty gmap.

Local Open Scope nat_scope.
Local Set Warnings "-register-all".

(** ** Python strings *)

Module PyStr.

Definition code (c : ascii) : nat := nat_of_ascii c.

(** [str.lower] on one code point below 256: A-Z and the Latin-1 capitals
    U+00C0..U+00DE (the multiplication sign U+00D7 apart) move up by 32. *)
Definition lower_char (c : ascii) : ascii :=
  let n := code c in
  if ((65 <=? n) && (n <=? 90))
     || ((192 <=? n) && (n <=? 222) && negb (n =? 215))
  then ascii_of_nat (n + 32) else c.

(** [s.lower()] *)
Fixpoint lower (s : string) : string :=
  match s with
  | EmptyString => EmptyString
  | String c s' => String (lower_char c) (lower s')
  end.

(** [str.isspace] on one code point below 256. *)
Definition is_space (c : ascii) : bool :=
  let n := code c in
  ((9 <=? n) && (n <=? 13)) || ((28 <=? n) && (n <=? 32))
  || (n =? 133) || (n =? 160).

Fixpoint lstrip (s : string) : string :=
  match s with
  | EmptyString => EmptyString
  | String c s' => if is_space c then lstrip s' else s
  end.

(** Drops the trailing white space: the result of [s.rstrip()]. *)
Fixpoint rstrip (s : string) : string :=
  match s with
  | EmptyString => EmptyString
  | String c s' =>
      match rstrip s' with
      | EmptyString => if is_space c then EmptyString else String c EmptyString
      | r => String c r
      end
  end.

(** [s.strip()] *)
Definition strip (s : string) : string := rstrip (lstrip s).

(** [s.startswith(p)] *)
Fixpoint startswith (p s : string) : bool :=
  match p with
  | EmptyString => true
  | String a p' =>
      match s with
      | EmptyString => false
      | String b s' => if Ascii.eqb a b then startswith p' s' else false
      end
  end.

(** [s[n:]] *)
Fixpoint drop (n : nat) (s : string) : string :=
  match n, s with
  | O, _ => s
  | S _, EmptyString => EmptyString
  | S n', String _ s' => drop n' s'
  end.

(** [s[:n]] *)
Fixpoint take (n : nat) (s : string) : string :=
  match n, s with
  | O, _ => EmptyString
  | S _, EmptyString => EmptyString
  | S n', String c s' => String c (take n' s')
  end.

(** [sub in s] *)
Fixpoint contains (sub s : string) : bool :=
  startswith sub s ||
  match s with
  | EmptyString => false
  | String _ s' => contains sub s'
  end.

(** [not s], the truth value of a string *)
Definition is_empty (s : string) : bool :=
  match s with EmptyString => true | _ => false end.

(** [s.rstrip("/")] *)
Fixpoint rstrip_slash (s : string) : string :=
  match s with
  | EmptyString => EmptyString
  | String c s' =>
      match rstrip_slash s' with
      | EmptyString => if Ascii.eqb c "/" then EmptyString else String c EmptyString
      | r => String c r
      end
  end.

(** The mathematical reading of [sub in s]. *)
Definition Substring (sub s : string) : Prop :=
  ∃ pre post, s = pre +:+ sub +:+ post.

End PyStr.

(** ** JSON values and Python's dynamic operations on them *)

Inductive json : Type :=
| JNull
| JBool (b : bool)
| JNum (n : Z)
| JStr (s : string)
| JArr (items : list json)
| JObj (items : list (string * json)).

Inductive exn : Type :=
| AttributeError (type_name attr : string)
| TypeError (msg : string).

Inductive outcome (A : Type) : Type :=
| Ret (a : A)
| Raise (e : exn).
Arguments Ret {A} a.
Arguments Raise {A} e.

Module Py.

(** [type(v).__name__] *)
Definition type_name (v : json) : string :=
  match v with
  | JNull => "NoneType"
  | JBool _ => "bool"
  | JNum _ => "int"
  | JStr _ => "str"
  | JArr _ => "list"
  | JObj _ => "dict"
  end.

(** [str(exc)] *)
Definition str_exn (e : exn) : string :=
  match e with
  | AttributeError t a =>
      "'" +:+ t +:+ "' object has no attribute '" +:+ a +:+ "'"
  | TypeError m => m
  end.

(** [bool(v)] *)
Definition truthy (v : json) : bool :=
  match v with
  | JNull => false
  | JBool b => b
  | JNum n => negb (n =? 0)%Z
  | JStr s => negb (PyStr.is_empty s)
  | JArr l => match l with [] => false | _ => true end
  | JObj l => match l with [] => false | _ => true end
  end.

(** [a or b] *)
Definition or_else (a b : json) : json := if truthy a then a else b.

Fixpoint assoc (k : string) (items : list (string * json)) : option json :=
  match items with
  | [] => None
  | (k', v) :: rest => if String.eqb k k' then Some v else assoc k rest
  end.

(** [d[k] = v] on a dict: an existing key keeps its place. *)
Fixpoint assoc_set (k : string) (v : json) (items : list (string * json))
  : list (string * json) :=
  match items with
  | [] => [(k, v)]
  | (k', v') :: rest =>
      if String.eqb k k' then (k', v) :: rest
      else (k', v') :: assoc_set k v rest
  end.

(** [d.get(k, default)]; only a dict has the method. *)
Definition get (d : json) (k : string) (default : json) : outcome json :=
  match d with
  | JObj items => Ret (from_option id default (assoc k items))
  | _ => Raise (AttributeError (type_name d) "get")
  end.

(** [v.strip()] *)
Definition strip (v : json) : outcome string :=
  match v with
  | JStr s => Ret (PyStr.strip s)
  | _ => Raise (AttributeError (type_name v) "strip")
  end.

(** [v.lower()] *)
Definition lower (v : json) : outcome string :=
  match v with
  | JStr s => Ret (PyStr.lower s)
  | _ => Raise (AttributeError (type_name v) "lower")
  end.

(** [v == s] for a string literal [s] *)
Definition eq_str (v : json) (s : string) : bool :=
  match v with
  | JStr t => String.eqb t s
  | _ => false
  end.

End Py.

(** ** The danger classifier ([app.py], [classify_danger]) *)

Definition high_keywords : list string :=
  [ "climbing"; "window"; "balcony"; "knife"; "medicine";
    "stranger"; "falling"; "sharp"; "fire"; "drown";
    "pool"; "choking"; "electric" ].

Definition classify_danger (triggered condition explanation : json)
  : outcome string :=
  if negb (Py.truthy triggered) then Ret "safe"
  else
    match Py.lower explanation with
    | Raise e => Raise e
    | Ret lower_exp =>
        if existsb (λ kw, PyStr.contains kw lower_exp) high_keywords
        then Ret "high"
        else Ret "medium"
    end.

(** ** Library calls and the outside world *)

(** The library functions the handlers call.  [json_loads s] is [None] when
    [json.loads(s)] raises [JSONDecodeError]; [utcnow_isoformat k] is what
    the [k]-th call of [datetime.utcnow().isoformat()] returns;
    [uuid4_str k] is [str(uuid.uuid4())] at the [k]-th draw; [format_str v]
    is the text an f-string puts for [v]. *)
Class PyLib : Type := {
  json_loads : string → option json;
  utcnow_isoformat : nat → string;
  uuid4_str : nat → string;
  format_str : json → string;
}.

(** What a call of the [requests] library inside [TrioClient] comes back
    with: the parsed body of a 2xx reply, the [HTTPError] that
    [raise_for_status] raises (with [e.response.json()], when that parses),
    or another [RequestException].  [msg] is [str(exc)]. *)
Inductive upstream : Type :=
| Replied (result : json)
| HTTPError (msg : string) (body : option json)
| RequestException (msg : string).

(** How [resp.iter_lines()] ends: the body is exhausted, or the connection
    fails with an exception whose text is [msg]. *)
Inductive stream_end : Type :=
| Exhausted
| Broken (msg : string).

Definition dquote : string := String "034"%char EmptyString.
Definition newline : string := String "010"%char EmptyString.

(** A key of a Python dict: [True] and [1] are the same key. *)
Inductive pykey : Type :=
| KNone
| KInt (n : Z)
| KStr (s : string).

#[global] Instance pykey_eq_dec : EqDecision pykey.
Proof. solve_decision. Defined.

#[global] Instance pykey_countable : Countable pykey.
Proof.
  refine (inj_countable'
    (λ k, match k with
          | KNone => inl ()
          | KInt n => inr (inl n)
          | KStr s => inr (inr s)
          end)
    (λ x, match x with
          | inl _ => KNone
          | inr (inl n) => KInt n
          | inr (inr s) => KStr s
          end) _).
  by intros [].
Defined.

(** [hash(v)], as a dict lookup or store needs it. *)
Definition hash_key (v : json) : outcome pykey :=
  match v with
  | JNull => Ret KNone
  | JBool b => Ret (KInt (if b then 1 else 0))
  | JNum n => Ret (KInt n)
  | JStr s => Ret (KStr s)
  | JArr _ => Raise (TypeError "unhashable type: 'list'")
  | JObj _ => Raise (TypeError "unhashable type: 'dict'")
  end.

(** ** The in-memory stores of [app.py] *)

Record World : Type := mkWorld {
  alert_history : list json;
  webhook_events : list json;
  digest_summaries : list json;
  active_monitors : gmap pykey (list (string * json));
  webhook_site_token : list (string * json);
  clock_reads : nat;
  uuid_draws : nat;
}.

Definition init_world : World :=
  mkWorld [] [] [] ∅ [] 0 0.

Definition with_alert_history (f : list json → list json) (w : World) : World :=
  mkWorld (f (alert_history w)) (webhook_events w) (digest_summaries w)
    (active_monitors w) (webhook_site_token w) (clock_reads w) (uuid_draws w).

Definition with_webhook_events (f : list json → list json) (w : World) : World :=
  mkWorld (alert_history w) (f (webhook_events w)) (digest_summaries w)
    (active_monitors w) (webhook_site_token w) (clock_reads w) (uuid_draws w).

Definition with_digest_summaries (f : list json → list json) (w : World) : World :=
  mkWorld (alert_history w) (webhook_events w) (f (digest_summaries w))
    (active_monitors w) (webhook_site_token w) (clock_reads w) (uuid_draws w).

Definition with_active_monitors
    (f : gmap pykey (list (string * json)) → gmap pykey (list (string * json)))
    (w : World) : World :=
  mkWorld (alert_history w) (webhook_events w) (digest_summaries w)
    (f (active_monitors w)) (webhook_site_token w) (clock_reads w) (uuid_draws w).

Definition with_webhook_site_token (t : list (string * json)) (w : World) : World :=
  mkWorld (alert_history w) (webhook_events w) (digest_summaries w)
    (active_monitors w) t (clock_reads w) (uuid_draws w).

(** [l.insert(0, x)] *)
Definition insert0 {A} (x : A) (l : list A) : list A := x :: l.

(** [l.pop()] on a list that is not empty *)
Definition pop {A} (l : list A) : list A := removelast l.

(** [if len(l) > 200: l.pop()] *)
Definition trim200 {A} (l : list A) : list A :=
  if 200 <? length l then pop l else l.

(** ** The monad of the handlers: state, and exceptions that keep it *)

Definition M (A : Type) : Type := World → outcome A * World.

Definition ret {A} (a : A) : M A := λ w, (Ret a, w).

Definition bind {A B} (m : M A) (k : A → M B) : M B :=
  λ w, match m w with
       | (Ret a, w') => k a w'
       | (Raise e, w') => (Raise e, w')
       end.

Definition lift {A} (o : outcome A) : M A := λ w, (o, w).

Definition modify (f : World → World) : M unit := λ w, (Ret (), f w).

Definition read {A} (f : World → A) : M A := λ w, (Ret (f w), w).

Notation "'let*' x ':=' m 'in' k" := (bind m (λ x, k))
  (at level 10, x name, m at level 100, k at level 200).
Notation "m ';;' k" := (bind m (λ _, k))
  (at level 100, k at level 200, right associativity).

(** [classify_danger] as a call made while a request is served: the body
    of the function, statement by statement, in the monad of the handlers,
    where reading and writing the stores, the clock and the uuid source is
    possible. *)
Definition classify_danger_in_state (triggered condition explanation : json)
  : M string :=
  if negb (Py.truthy triggered) then ret "safe"
  else
    let* lower_exp := lift (Py.lower explanation) in
    let high_keywords :=
      [ "climbing"; "window"; "balcony"; "knife"; "medicine";
        "stranger"; "falling"; "sharp"; "fire"; "drown";
        "pool"; "choking"; "electric" ] in
    if existsb (λ kw, PyStr.contains kw lower_exp) high_keywords
    then ret "high"
    else ret "medium".

Section WithLibrary.
Context {lib : PyLib}.

(** [datetime.utcnow().isoformat() + "Z"] *)
Definition utcnow_z : M string := λ w,
  (Ret (utcnow_isoformat (clock_reads w) +:+ "Z"),
   mkWorld (alert_history w) (webhook_events w) (digest_summaries w)
     (active_monitors w) (webhook_site_token w) (S (clock_reads w)) (uuid_draws w)).

(** [str(uuid.uuid4())[:8]] *)
Definition uuid8 : M string := λ w,
  (Ret (PyStr.take 8 (uuid4_str (uuid_draws w))),
   mkWorld (alert_history w) (webhook_events w) (digest_summaries w)
     (active_monitors w) (webhook_site_token w) (clock_reads w) (S (uuid_draws w))).

End WithLibrary.

(** Sequencing in [outcome]: an exception ends the computation. *)
Definition obind {A B} (o : outcome A) (k : A → outcome B) : outcome B :=
  match o with
  | Ret a => k a
  | Raise e => Raise e
  end.

Notation "'let+' x ':=' o 'in' k" := (obind o (λ x, k))
  (at level 10, x name, o at level 100, k at level 200).

(** ** [trio_client.py] *)

Module TrioClient.

(** [validate_stream]; [reply] is what its call of [self.check_once]
    comes back with. *)
Definition validate_stream (reply : upstream) : outcome json :=
  match reply with
  | Replied result =>
      Ret (JObj [ ("valid", JBool true);
                  ("message", JStr "Stream is live and accessible");
                  ("details", result) ])
  | HTTPError msg body =>
      let error_body := from_option id (JObj []) body in
      let+ err := Py.get error_body "error" (JObj []) in
      let+ message := Py.get err "message" (JStr msg) in
      let+ err' := Py.get error_body "error" (JObj []) in
      let+ remediation := Py.get err' "remediation" (JStr "") in
      Ret (JObj [ ("valid", JBool false);
                  ("message", message);
                  ("remediation", remediation) ])
  | RequestException msg =>
      Ret (JObj [ ("valid", JBool false); ("message", JStr msg) ])
  end.

(** One step of the generator [start_digest_sse]: the next line it
    yields out of the lines [resp.iter_lines()] still has to deliver. *)
Inductive pulled : Type :=
| Yield (line : string) (rest : list string)
| StopIteration
| Thrown (msg : string).

Fixpoint start_digest_sse (lines : list string) (fin : stream_end) : pulled :=
  match lines with
  | [] => match fin with
          | Exhausted => StopIteration
          | Broken msg => Thrown msg
          end
  | line :: rest =>
      if negb (PyStr.is_empty line) then Yield line rest
      else start_digest_sse rest fin
  end.

Section WithLibrary.
Context {lib : PyLib}.

(** The body of the loop of [start_monitor_sse] for one line. *)
Definition monitor_event (line : string) : option json :=
  if negb (PyStr.is_empty line) && PyStr.startswith "data:" line then
    let data_str := PyStr.strip (PyStr.drop 5 line) in
    match json_loads data_str with
    | Some event => Some event
    | None => Some (JObj [ ("raw", JStr data_str) ])
    end
  else None.

(** The events [start_monitor_sse] yields for the lines it receives. *)
Definition start_monitor_sse (lines : list string) : list json :=
  omap monitor_event lines.

End WithLibrary.

End TrioClient.

(** ** More of Python's dynamic operations, for the read-only routes *)

Module PySeq.

(** The items a [for] loop over [v] visits. *)
Definition iter (v : json) : outcome (list json) :=
  match v with
  | JArr items => Ret items
  | JObj items => Ret (map (λ kv, JStr kv.1) items)
  | JStr s => Ret (map (λ c, JStr (String c EmptyString)) (String.list_ascii_of_string s))
  | _ => Raise (TypeError ("'" +:+ Py.type_name v +:+ "' object is not iterable"))
  end.

(** [v[:n]]; slicing a dict is the [TypeError] of Python before 3.12. *)
Definition slice_to (n : nat) (v : json) : outcome json :=
  match v with
  | JStr s => Ret (JStr (PyStr.take n s))
  | JArr items => Ret (JArr (take n items))
  | JObj _ => Raise (TypeError "unhashable type: 'slice'")
  | _ => Raise (TypeError ("'" +:+ Py.type_name v +:+ "' object is not subscriptable"))
  end.

(** A loop that builds a list and stops at the first exception. *)
Fixpoint each {A B} (f : A → outcome B) (l : list A) : outcome (list B) :=
  match l with
  | [] => Ret []
  | x :: rest =>
      let+ y := f x in
      let+ ys := each f rest in
      Ret (y :: ys)
  end.

(** [[a for a in l if a.get(k) == s]] *)
Fixpoint where_eq (k s : string) (l : list json) : outcome (list json) :=
  match l with
  | [] => Ret []
  | a :: rest =>
      let+ v := Py.get a k JNull in
      let+ kept := where_eq k s rest in
      Ret (if Py.eq_str v s then a :: kept else kept)
  end.

End PySeq.

(** ** [app.py]: the routes that write to the stores *)

Definition response : Type := json * nat.

Module App.

Definition WEBHOOK_SITE_BASE : string := "https://webhook.site".

Definition error_body (msg : string) : json := JObj [ ("error", JStr msg) ].

(** The frame of the [except] branch of [generate]:
    [data: {"type":"error","message":"<exc>"}] and two newlines. *)
Definition error_frame (msg : string) : string :=
  "data: {" +:+ dquote +:+ "type" +:+ dquote +:+ ":" +:+ dquote +:+ "error"
  +:+ dquote +:+ "," +:+ dquote +:+ "message" +:+ dquote +:+ ":" +:+ dquote
  +:+ msg +:+ dquote +:+ "}" +:+ newline +:+ newline.

Section WithLibrary.
Context {lib : PyLib}.

(** [POST /api/check] *)
Definition safety_check (body : json) (reply : upstream) : M response :=
  let data := Py.or_else body (JObj []) in
  let* su := lift (Py.get data "stream_url" (JStr "")) in
  let* stream_url := lift (Py.strip su) in
  let* c := lift (Py.get data "condition" (JStr "")) in
  let* condition := lift (Py.strip c) in
  if PyStr.is_empty stream_url || PyStr.is_empty condition then
    ret (error_body "stream_url and condition are required", 400)
  else
    match reply with
    | Replied result =>
        let* triggered := lift (Py.get result "triggered" (JBool false)) in
        let* explanation := lift (Py.get result "explanation" (JStr "")) in
        let* danger :=
          lift (classify_danger triggered (JStr condition) explanation) in
        let* id := uuid8 in
        let* now := utcnow_z in
        let* latency_ms := lift (Py.get result "latency_ms" (JNum 0)) in
        let record :=
          JObj [ ("id", JStr id);
                 ("timestamp", JStr now);
                 ("stream_url", JStr stream_url);
                 ("condition", JStr condition);
                 ("triggered", triggered);
                 ("explanation", explanation);
                 ("latency_ms", latency_ms);
                 ("danger_level", JStr danger) ] in
        modify (with_alert_history (insert0 record));;
        modify (with_alert_history trim200);;
        ret (record, 200)
    | HTTPError msg _ | RequestException msg =>
        ret (error_body msg, 502)
    end.

(** [POST /api/webhook-site/create]; every exception of the body is
    caught by its [except Exception]. *)
Definition create_webhook_site_token (reply : upstream) : M response :=
  let failed (msg : string) : M response :=
    ret (error_body ("Failed to create webhook.site token: " +:+ msg), 502) in
  match reply with
  | Replied token_data =>
      let built : outcome (list (string * json)) :=
        let+ token_uuid := Py.get token_data "uuid" (JStr "") in
        let+ created_at := Py.get token_data "created_at" (JStr "") in
        Ret [ ("uuid", token_uuid);
              ("url", JStr (WEBHOOK_SITE_BASE +:+ "/" +:+ format_str token_uuid));
              ("view_url",
               JStr (WEBHOOK_SITE_BASE +:+ "/#!/view/" +:+ format_str token_uuid));
              ("created_at", created_at) ] in
      match built with
      | Ret token =>
          modify (with_webhook_site_token token);;
          ret (JObj token, 200)
      | Raise e => failed (Py.str_exn e)
      end
  | HTTPError msg _ | RequestException msg => failed msg
  end.

(** [POST /api/monitor/start] *)
Definition start_monitor (body : json) (url_root : string) (reply : upstream)
  : M response :=
  let data := Py.or_else body (JObj []) in
  let* su := lift (Py.get data "stream_url" (JStr "")) in
  let* stream_url := lift (Py.strip su) in
  let* c := lift (Py.get data "condition" (JStr "")) in
  let* condition := lift (Py.strip c) in
  let* wu := lift (Py.get data "webhook_url" (JStr "")) in
  let* webhook_url := lift (Py.strip wu) in
  if PyStr.is_empty stream_url || PyStr.is_empty condition then
    ret (error_body "stream_url and condition required", 400)
  else
    let* token := read webhook_site_token in
    let token_url := from_option id JNull (Py.assoc "url" token) in
    let webhook_url : json :=
      if PyStr.is_empty webhook_url && Py.truthy token_url then token_url
      else if PyStr.is_empty webhook_url
           then JStr (PyStr.rstrip_slash url_root +:+ "/api/webhook")
           else JStr webhook_url in
    match reply with
    | Replied result =>
        let* job_id := lift (Py.get result "job_id" (JStr "unknown")) in
        let* status := lift (Py.get result "status" (JStr "running")) in
        let* now := utcnow_z in
        let entry :=
          [ ("job_id", job_id);
            ("stream_url", JStr stream_url);
            ("condition", JStr condition);
            ("webhook_url", webhook_url);
            ("status", status);
            ("started_at", JStr now) ] in
        let* key := lift (hash_key job_id) in
        modify (with_active_monitors (insert key entry));;
        ret (JObj entry, 200)
    | HTTPError msg _ | RequestException msg =>
        ret (error_body msg, 502)
    end.

(** [POST /api/monitor/stop] *)
Definition stop_monitor (body : json) (reply : upstream) : M response :=
  let data := Py.or_else body (JObj []) in
  let* j := lift (Py.get data "job_id" (JStr "")) in
  let* job_id := lift (Py.strip j) in
  if PyStr.is_empty job_id then
    ret (error_body "job_id is required", 400)
  else
    match reply with
    | Replied result =>
        modify (with_active_monitors
                  (alter (Py.assoc_set "status" (JStr "stopped")) (KStr job_id)));;
        ret (result, 200)
    | HTTPError msg _ | RequestException msg =>
        ret (error_body msg, 502)
    end.


(** [POST /api/webhook] *)
Definition webhook_receiver (body : json) : M response :=
  let payload := Py.or_else body (JObj []) in
  let* event_type := lift (Py.get payload "type" (JStr "unknown")) in
  let* data := lift (Py.get payload "data" (JObj [])) in
  let* now := utcnow_z in
  let* timestamp := lift (Py.get payload "timestamp" (JStr now)) in
  let* id := uuid8 in
  let* received_at := utcnow_z in
  let* source_url := lift (Py.get payload "source_url" (JStr "")) in
  let event_record :=
    JObj [ ("id", JStr id);
           ("received_at", JStr received_at);
           ("type", event_type);
           ("timestamp", timestamp);
           ("source_url", source_url);
           ("data", data) ] in
  (if Py.eq_str event_type "watch_triggered" then
     let* triggered := lift (Py.get data "triggered" (JBool false)) in
     let* condition := lift (Py.get data "condition" (JStr "")) in
     let* explanation := lift (Py.get data "explanation" (JStr "")) in
     let* danger := lift (classify_danger triggered condition explanation) in
     let* frame_b64 := lift (Py.get data "frame_b64" (JStr "")) in
     let alert_record :=
       JObj [ ("id", JStr id);
              ("timestamp", timestamp);
              ("stream_url", source_url);
              ("condition", condition);
              ("triggered", triggered);
              ("explanation", explanation);
              ("latency_ms", JNum 0);
              ("danger_level", JStr danger);
              ("source", JStr "webhook");
              ("frame_b64", frame_b64) ] in
     modify (with_alert_history (insert0 alert_record))
   else ret ());;
  (if Py.eq_str event_type "job_stopped"
      || Py.eq_str event_type "job_completed"
      || Py.eq_str event_type "job_failed" then
     let* job_id := lift (Py.get data "job_id" (JStr "")) in
     let* key := lift (hash_key job_id) in
     let* monitors := read active_monitors in
     match monitors !! key with
     | Some _ =>
         let* status := lift (Py.get data "status" (JStr "stopped")) in
         modify (with_active_monitors (alter (Py.assoc_set "status" status) key))
     | None => ret ()
     end
   else ret ());;
  modify (with_webhook_events (insert0 event_record));;
  modify (with_webhook_events trim200);;
  ret (JObj [ ("status", JStr "ok") ], 200).

(** [POST /api/alerts/clear] *)
Definition clear_alerts : M response :=
  modify (with_alert_history (λ _, []));;
  ret (JObj [ ("status", JStr "cleared") ], 200).

(** The mirroring part of the loop body of [generate] in [start_digest]:
    what runs after [yield line + "\n"] when the generator is resumed. *)
Definition mirror_summary (stream_url line : string) : M unit :=
  if PyStr.startswith "data:" line then
    let raw := PyStr.strip (PyStr.drop 5 line) in
    match json_loads raw with
    | None => ret ()
    | Some parsed =>
        let* type := lift (Py.get parsed "type" JNull) in
        if Py.eq_str type "summary" then
          let* now := utcnow_z in
          let* summary := lift (Py.get parsed "summary" (JStr raw)) in
          modify (with_digest_summaries
                    (insert0 (JObj [ ("timestamp", JStr now);
                                     ("summary", summary);
                                     ("stream_url", JStr stream_url) ])))
        else ret ()
    end
  else ret ().

(** Where the generator [generate] of [start_digest] is suspended. *)
Inductive gen_state : Type :=
| Fresh (lines : list string) (fin : stream_end)
| AtLine (line : string) (lines : list string) (fin : stream_end)
| AtError
| Finished.

(** The [for] statement asks [trio.start_digest_sse] for its next line. *)
Definition pull (lines : list string) (fin : stream_end) (w : World)
  : option string * gen_state * World :=
  match TrioClient.start_digest_sse lines fin with
  | TrioClient.Yield line rest => (Some (line +:+ newline), AtLine line rest fin, w)
  | TrioClient.StopIteration => (None, Finished, w)
  | TrioClient.Thrown msg => (Some (error_frame msg), AtError, w)
  end.

(** [next(generate())]: the frame yielded, if any, and the new state. *)
Definition generate_next (stream_url : string) (s : gen_state) (w : World)
  : option string * gen_state * World :=
  match s with
  | Fresh lines fin => pull lines fin w
  | AtLine line lines fin =>
      match mirror_summary stream_url line w with
      | (Ret _, w') => pull lines fin w'
      | (Raise e, w') => (Some (error_frame (Py.str_exn e)), AtError, w')
      end
  | AtError => (None, Finished, w)
  | Finished => (None, Finished, w)
  end.

(** The frames sent when the server asks the generator [reads] times,
    stopping early when it is exhausted. *)
Fixpoint drain (reads : nat) (stream_url : string) (s : gen_state) (w : World)
  : list string * World :=
  match reads with
  | O => ([], w)
  | S reads' =>
      match generate_next stream_url s w with
      | (Some frame, s', w') =>
          let '(frames, w'') := drain reads' stream_url s' w' in
          (frame :: frames, w'')
      | (None, _, w') => ([], w')
      end
  end.

(** The relay run to its end: every upstream line gives at most one
    read, the error frame one more, and a last read finds the end. *)
Definition relay (stream_url : string) (lines : list string) (fin : stream_end)
    (w : World) : list string * World :=
  drain (length lines + 2) stream_url (Fresh lines fin) w.

(** [POST /api/digest/start]: an error response, or the stream URL the
    streaming response runs [generate] for. *)
Definition start_digest (body : json) : M (response + string) :=
  let data := Py.or_else body (JObj []) in
  let* su := lift (Py.get data "stream_url" (JStr "")) in
  let* stream_url := lift (Py.strip su) in
  if PyStr.is_empty stream_url then
    ret (inl (error_body "stream_url is required", 400))
  else ret (inr stream_url).

(** *** The routes that only read *)

(** [POST /api/validate-stream] *)
Definition validate_stream (body : json) (reply : upstream) : outcome response :=
  let data := Py.or_else body (JObj []) in
  let+ su := Py.get data "stream_url" (JStr "") in
  let+ stream_url := Py.strip su in
  if PyStr.is_empty stream_url then
    Ret (error_body "stream_url is required", 400)
  else
    let+ result := TrioClient.validate_stream reply in
    Ret (result, 200).


(** The body of the loop of [get_webhook_site_events] for one request
    that webhook.site recorded. *)
Definition site_event (req_item : json) : outcome json :=
  let+ content_str := Py.get req_item "content" (JStr "") in
  let+ payload :=
    if Py.truthy content_str then
      match content_str with
      | JStr s =>
          match json_loads s with
          | Some v => Ret v
          | None => Ret (JObj [ ("raw", content_str) ])
          end
      | _ =>
          Raise (TypeError ("the JSON object must be str, bytes or bytearray, not "
                            +:+ Py.type_name content_str))
      end
    else Ret (JObj []) in
  let+ event_type := Py.get payload "type" (JStr "unknown") in
  let+ data := Py.get payload "data" (JObj []) in
  let+ danger :=
    if Py.eq_str event_type "watch_triggered" then
      let+ triggered := Py.get data "triggered" (JBool false) in
      let+ condition := Py.get data "condition" (JStr "") in
      let+ explanation := Py.get data "explanation" (JStr "") in
      classify_danger triggered condition explanation
    else Ret "info" in
  let+ uuid := Py.get req_item "uuid" (JStr "") in
  let+ id := PySeq.slice_to 8 uuid in
  let+ created_at := Py.get req_item "created_at" (JStr "") in
  let+ timestamp := Py.get payload "timestamp" created_at in
  let+ source_url := Py.get payload "source_url" (JStr "") in
  let+ condition := Py.get data "condition" (JStr "") in
  let+ triggered := Py.get data "triggered" (JBool false) in
  let+ explanation := Py.get data "explanation" (JStr "") in
  let+ frame_b64 := Py.get data "frame_b64" (JStr "") in
  let+ job_id := Py.get data "job_id" (JStr "") in
  let+ status := Py.get data "status" (JStr "") in
  let+ reason := Py.get data "reason" (JStr "") in
  let+ checks_performed := Py.get data "checks_performed" (JNum 0) in
  let+ triggers_fired := Py.get data "triggers_fired" (JNum 0) in
  Ret (JObj [ ("id", id);
              ("webhook_request_id", uuid);
              ("received_at", created_at);
              ("type", event_type);
              ("danger_level", JStr danger);
              ("timestamp", timestamp);
              ("source_url", source_url);
              ("condition", condition);
              ("triggered", triggered);
              ("explanation", explanation);
              ("frame_b64", frame_b64);
              ("job_id", job_id);
              ("status", status);
              ("reason", reason);
              ("checks_performed", checks_performed);
              ("triggers_fired", triggers_fired) ]).

(** [GET /api/webhook-site/events]; [reply] is what the poll of
    webhook.site comes back with. *)
Definition get_webhook_site_events (reply : upstream) (w : World)
  : outcome response :=
  let token := webhook_site_token w in
  if negb (Py.truthy (JObj token))
     || negb (Py.truthy (from_option id JNull (Py.assoc "uuid" token))) then
    Ret (JObj [ ("events", JArr []); ("total", JNum 0) ], 200)
  else
    match reply with
    | Replied raw =>
        let+ listed := Py.get raw "data" (JArr []) in
        let+ req_items := PySeq.iter listed in
        let+ events := PySeq.each site_event req_items in
        let+ total := Py.get raw "total" (JNum 0) in
        Ret (JObj [ ("events", JArr events); ("total", total) ], 200)
    | HTTPError msg _ | RequestException msg =>
        Ret (JObj [ ("events", JArr []); ("total", JNum 0); ("error", JStr msg) ],
             200)
    end.

(** [GET /api/webhook/events] *)
Definition get_webhook_events (w : World) : response :=
  (JArr (take 50 (webhook_events w)), 200).

(** [GET /api/digest/summaries] *)
Definition get_digests (w : World) : response :=
  (JArr (take 50 (digest_summaries w)), 200).

(** [GET /api/alerts]; [level_arg] is the [level] query parameter, empty
    when it is absent. *)
Definition get_alerts (level_arg : string) (w : World) : outcome response :=
  let level := PyStr.strip level_arg in
  if negb (PyStr.is_empty level) then
    let+ filtered := PySeq.where_eq "danger_level" level (alert_history w) in
    Ret (JArr (take 100 filtered), 200)
  else Ret (JArr (take 100 (alert_history w)), 200).

(** The generator [generate] of [start_digest_sse_get]: the relay of the
    GET variant, which forwards and does not mirror. *)
Definition pull_get (lines : list string) (fin : stream_end)
  : option string * gen_state :=
  match TrioClient.start_digest_sse lines fin with
  | TrioClient.Yield line rest => (Some (line +:+ newline), AtLine line rest fin)
  | TrioClient.StopIteration => (None, Finished)
  | TrioClient.Thrown msg => (Some (error_frame msg), AtError)
  end.

Definition generate_get_next (s : gen_state) : option string * gen_state :=
  match s with
  | Fresh lines fin => pull_get lines fin
  | AtLine _ lines fin => pull_get lines fin
  | AtError => (None, Finished)
  | Finished => (None, Finished)
  end.

Fixpoint drain_get (reads : nat) (s : gen_state) : list string :=
  match reads with
  | O => []
  | S reads' =>
      match generate_get_next s with
      | (Some frame, s') => frame :: drain_get reads' s'
      | (None, _) => []
      end
  end.

Definition relay_get (lines : list string) (fin : stream_end) : list string :=
  drain_get (length lines + 2) (Fresh lines fin).

(** One request to a route that writes to a store, with what the outside
    world answers while it is served.  [reads] is how often the server
    asks the digest generator for a frame before the client is gone. *)
Inductive Op : Type :=
| OpSafetyCheck (body : json) (reply : upstream)
| OpCreateToken (reply : upstream)
| OpStartMonitor (body : json) (url_root : string) (reply : upstream)
| OpStopMonitor (body : json) (reply : upstream)
| OpWebhook (body : json)
| OpClearAlerts
| OpDigest (body : json) (lines : list string) (fin : stream_end) (reads : nat).

Definition exec (op : Op) (w : World) : World :=
  match op with
  | OpSafetyCheck body reply => (safety_check body reply w).2
  | OpCreateToken reply => (create_webhook_site_token reply w).2
  | OpStartMonitor body url_root reply => (start_monitor body url_root reply w).2
  | OpStopMonitor body reply => (stop_monitor body reply w).2
  | OpWebhook body => (webhook_receiver body w).2
  | OpClearAlerts => (clear_alerts w).2
  | OpDigest body lines fin reads =>
      match start_digest body w with
      | (Ret (inr stream_url), w') =>
          (drain reads stream_url (Fresh lines fin) w').2
      | (_, w') => w'
      end
  end.

Definition exec_all (ops : list Op) (w : World) : World :=
  foldl (λ w op, exec op w) w ops.

End WithLibrary.

End App.

(** ** A library instance for the examples

    [sample_lib] agrees with the Python library on the texts the examples
    hand to it: [json.loads] on the two JSON texts below and on texts that
    are not JSON, and f-string formatting on strings, [None], booleans and
    integers. *)

(** The text [{"type":"summary","summary":"All calm"}] *)
Definition summary_text : string :=
  "{" +:+ dquote +:+ "type" +:+ dquote +:+ ":" +:+ dquote +:+ "summary" +:+ dquote
  +:+ "," +:+ dquote +:+ "summary" +:+ dquote +:+ ":" +:+ dquote +:+ "All calm"
  +:+ dquote +:+ "}".

Definition summary_line : string := "data: " +:+ summary_text.

Definition sample_lib : PyLib := {|
  json_loads s :=
    if String.eqb s summary_text
    then Some (JObj [ ("type", JStr "summary"); ("summary", JStr "All calm") ])
    else if String.eqb s "5" then Some (JNum 5)
    else None;
  utcnow_isoformat k := "2024-05-01T12:00:00." +:+ pretty k;
  uuid4_str k := "123e4567-e89b-12d3-a456-426614174000";
  format_str v :=
    match v with
    | JStr s => s
    | JNull => "None"
    | JBool b => if b then "True" else "False"
    | JNum n => pretty n
    | _ => ""
    end;
|}.

(** A world with one running monitor, as [start_monitor] leaves it. *)
Definition start_request : json :=
  JObj [ ("stream_url", JStr "rtsp://cam.example/nursery");
         ("condition", JStr "Is a child climbing?") ].

Definition monitored_world : World :=
  App.exec (lib:=sample_lib)
    (App.OpStartMonitor start_request "http://localhost:5001/"
       (Replied (JObj [ ("job_id", JStr "job-1"); ("status", JStr "running") ])))
    init_world.

Definition job_entry : list (string * json) :=
  [ ("job_id", JStr "job-1");
    ("stream_url", JStr "rtsp://cam.example/nursery");
    ("condition", JStr "Is a child climbing?");
    ("webhook_url", JStr "http://localhost:5001/api/webhook");
    ("status", JStr "running");
    ("started_at", JStr "2024-05-01T12:00:00.0Z") ].

(** Webhook deliveries: a job event with a status outside the life cycle,
    and a triggered watch. *)
Definition paused_event : json :=
  JObj [ ("type", JStr "job_stopped");
         ("data", JObj [ ("job_id", JStr "job-1"); ("status", JStr "paused") ]) ].

Definition triggered_event : json :=
  JObj [ ("type", JStr "watch_triggered");
         ("data", JObj [ ("triggered", JBool true);
                         ("condition", JStr "Is a child climbing?");
                         ("explanation", JStr "Child climbing on a shelf") ]) ].

Definition stop_request : json := JObj [ ("job_id", JStr "job-1") ].

(** A world with a webhook.site token, and a request webhook.site recorded
    whose content is not JSON. *)
Definition token_world : World :=
  (App.create_webhook_site_token (lib:=sample_lib)
     (Replied (JObj [ ("uuid", JStr "abc") ])) init_world).2.

Definition site_request : json :=
  JObj [ ("uuid", JStr "0123456789");
         ("content", JStr "not json");
         ("created_at", JStr "2024-05-01 12:00:00") ].

(** ** Vocabulary of the statements *)

(** The payload of a [data:] line, when it is JSON at all, is an object. *)
Definition object_payload `{PyLib} (line : string) : Prop :=
  PyStr.startswith "data:" line = true →
  ∀ v, json_loads (PyStr.strip (PyStr.drop 5 line)) = Some v → ∃ items, v = JObj items.

(** What the relay sends after the last forwarded line. *)
Definition closing_frames (fin : stream_end) : list string :=
  match fin with
  | Exhausted => []
  | Broken msg => [App.error_frame msg]
  end.

(** The log after the records [rs] went in one by one: with the trim of
    [safety_check] and [webhook_receiver], and without it. *)
Definition insert_all_trimmed {A} (rs l : list A) : list A :=
  foldl (λ l r, trim200 (insert0 r l)) l rs.

Definition insert_all {A} (rs l : list A) : list A :=
  foldl (λ l r, insert0 r l) l rs.

(** An alert as the routes store it: an object whose danger level is one
    of the three tiers. *)
Definition stored_alert (r : json) : Prop :=
  ∃ items tier,
    r = JObj items
    ∧ Py.assoc "danger_level" items = Some (JStr tier)
    ∧ In tier ["safe"; "medium"; "high"].

(** The summary a line of the digest stream carries, if it carries one:
    the [summary] member of a [data:] payload of type "summary", or the
    payload text itself when the member is missing. *)
Definition summary_of `{PyLib} (line : string) : option json :=
  if PyStr.startswith "data:" line then
    match json_loads (PyStr.strip (PyStr.drop 5 line)) with
    | Some (JObj items) =>
        if Py.eq_str (from_option id JNull (Py.assoc "type" items)) "summary"
        then Some (from_option id (JStr (PyStr.strip (PyStr.drop 5 line)))
                     (Py.assoc "summary" items))
        else None
    | _ => None
    end
  else None.

(** The call failed, and [msg] is the text of its exception. *)
Definition failure (reply : upstream) (msg : string) : Prop :=
  (∃ body, reply = HTTPError msg body) ∨ reply = RequestException msg.

(** [a.get("danger_level") == level] on a stored record *)
Definition has_level (level : string) (a : json) : bool :=
  match Py.get a "danger_level" JNull with
  | Ret v => Py.eq_str v level
  | Raise _ => false
  end.

(** * Properties *)

(** ** Python strings *)

Section StringFacts.
Import PyStr.

Lemma string_app_cons c s t : String c s +:+ t = String c (s +:+ t).
Proof. reflexivity. Qed.

Lemma string_app_assoc a b c : (a +:+ b) +:+ c = a +:+ b +:+ c.
Proof. induction a as [|x a IH]; [done|]. by rewrite !string_app_cons, IH. Qed.

Lemma startswith_app p s : startswith p (p +:+ s) = true.
Proof.
  induction p as [|a p IH]; [done|].
  rewrite string_app_cons. simpl. by rewrite Ascii.eqb_refl.
Qed.

Lemma startswith_inv p s : startswith p s = true → ∃ t, s = p +:+ t.
Proof.
  revert s. induction p as [|a p IH]; intros s H.
  - by exists s.
  - destruct s as [|b s]; [done|]. simpl in H.
    destruct (Ascii.eqb_spec a b) as [->|]; [|done].
    destruct (IH _ H) as [t ->]. by exists t.
Qed.

Lemma contains_unfold sub s :
  contains sub s =
  startswith sub s || match s with "" => false | String _ s' => contains sub s' end.
Proof. by destruct s. Qed.

(** [sub in s] decides that [sub] occurs in [s]. *)
Lemma contains_Substring sub s : contains sub s = true ↔ Substring sub s.
Proof.
  split.
  - induction s as [|c s IH]; rewrite contains_unfold; intros H.
    + rewrite orb_false_r in H. destruct (startswith_inv _ _ H) as [t Ht].
      by exists "", t.
    + apply orb_true_iff in H as [H|H].
      * destruct (startswith_inv _ _ H) as [t Ht]. by exists "", t.
      * destruct (IH H) as (pre & post & ->). by exists (String c pre), post.
  - intros (pre & post & ->). induction pre as [|c pre IH].
    + rewrite contains_unfold. change ("" +:+ sub +:+ post) with (sub +:+ post).
      by rewrite startswith_app.
    + rewrite string_app_cons, contains_unfold, IH. apply orb_true_r.
Qed.

Lemma lower_app a b : lower (a +:+ b) = lower a +:+ lower b.
Proof. induction a as [|c a IH]; [done|]. rewrite string_app_cons. simpl. by rewrite IH. Qed.

Lemma not_empty_iff s : is_empty s = false ↔ s ≠ "".
Proof. by destruct s. Qed.

End StringFacts.

(** ** The classifier *)

Lemma high_keywords_lower kw : In kw high_keywords → PyStr.lower kw = kw.
Proof. simpl. intros H. repeat (destruct H as [<-|H]; [reflexivity|]). done. Qed.

Lemma mentions_keyword s :
  existsb (λ kw, PyStr.contains kw s) high_keywords = true
  ↔ ∃ kw, In kw high_keywords ∧ PyStr.Substring kw s.
Proof.
  rewrite existsb_exists. split; intros (kw & Hin & H); exists kw; split; try done.
  - by apply contains_Substring.
  - by apply contains_Substring.
Qed.

(** C1. [classify_danger] gives "safe" whenever [triggered] is false,
    whatever the condition and the explanation; when [triggered] is true
    it gives "high" if the lower-cased explanation contains one of
    climbing, window, balcony, knife, medicine, stranger, falling, sharp,
    fire, drown, pool, choking, electric, and "medium" if it contains none
    of them; an empty explanation with [triggered] true gives "medium". *)
Theorem classify_danger_tiers (triggered : bool) (condition explanation : string) :
  let keyword_set :=
    [ "climbing"; "window"; "balcony"; "knife"; "medicine"; "stranger";
      "falling"; "sharp"; "fire"; "drown"; "pool"; "choking"; "electric" ] in
  let mentions :=
    ∃ kw, In kw keyword_set ∧ PyStr.Substring kw (PyStr.lower explanation) in
  let tier := classify_danger (JBool triggered) (JStr condition) (JStr explanation) in
  (triggered = false → tier = Ret "safe")
  ∧ (triggered = true → mentions → tier = Ret "high")
  ∧ (triggered = true → ¬ mentions → tier = Ret "medium")
  ∧ classify_danger (JBool true) (JStr condition) (JStr "") = Ret "medium".
Proof.
  intros keyword_set mentions tier. subst tier. unfold classify_danger.
  split; [by intros ->|]. split; [|split; [|done]].
  - intros -> Hm. cbn [Py.truthy negb Py.lower].
    apply mentions_keyword in Hm. by rewrite Hm.
  - intros -> Hm. cbn [Py.truthy negb Py.lower].
    destruct (existsb _ high_keywords) eqn:E; [|done].
    destruct Hm. by apply mentions_keyword.
Qed.

Lemma classify_danger_tiers_witness :
  classify_danger (JBool true) (JStr "Is a child near water?")
    (JStr "Child near pool edge") = Ret "high".
Proof.
  destruct (classify_danger_tiers true "Is a child near water?"
              "Child near pool edge") as (_ & H & _).
  apply H; [reflexivity|].
  exists "pool". split; [simpl; tauto|].
  exists "child near ", " edge". reflexivity.
Defined.

(** The value of [classify_danger] does not depend on the condition. *)
Lemma classify_danger_ignores_condition (triggered explanation c1 c2 : json) :
  classify_danger triggered c1 explanation = classify_danger triggered c2 explanation.
Proof. reflexivity. Qed.

(** C10. The keyword test is containment, not a match of whole words: an
    explanation in which a keyword occurs anywhere, also inside a longer
    word, is classified "high" when [triggered] is true. *)
Theorem classify_danger_substring (condition : json) (kw pre post : string) :
  In kw high_keywords →
  classify_danger (JBool true) condition (JStr (pre +:+ kw +:+ post)) = Ret "high".
Proof.
  intros Hin. unfold classify_danger. cbn [Py.truthy negb Py.lower].
  assert (existsb (λ k, PyStr.contains k (PyStr.lower (pre +:+ kw +:+ post)))
            high_keywords = true) as ->; [|done].
  apply mentions_keyword. exists kw. split; [done|].
  exists (PyStr.lower pre), (PyStr.lower post).
  by rewrite !lower_app, (high_keywords_lower kw).
Qed.

Lemma classify_danger_substring_witness :
  classify_danger (JBool true) (JStr "Is a child near water?")
    (JStr "by the poolside") = Ret "high".
Proof.
  apply (classify_danger_substring (JStr "Is a child near water?")
           "pool" "by the " "side").
  simpl; tauto.
Defined.

Example classify_windows :
  classify_danger (JBool true) (JStr "x") (JStr "leaning out of the windows")
  = Ret "high".
Proof. reflexivity. Qed.

Example classify_electricity :
  classify_danger (JBool true) (JStr "x") (JStr "playing with electricity")
  = Ret "high".
Proof. reflexivity. Qed.

Example classify_climbing :
  classify_danger (JBool true) (JStr "x") (JStr "Child is Climbing on a shelf")
  = Ret "high".
Proof. reflexivity. Qed.

Example classify_quiet :
  classify_danger (JBool true) (JStr "x") (JStr "playing quietly") = Ret "medium".
Proof. reflexivity. Qed.

(** ** The digest relay *)

Section RelayFacts.
Context {lib : PyLib}.
Import App.

Lemma mirror_summary_malformed stream_url line w :
  PyStr.startswith "data:" line = true →
  json_loads (PyStr.strip (PyStr.drop 5 line)) = None →
  mirror_summary stream_url line w = (Ret (), w).
Proof. intros H1 H2. unfold mirror_summary. by rewrite H1, H2. Qed.

Lemma mirror_summary_object stream_url line w :
  object_payload line → ∃ w', mirror_summary stream_url line w = (Ret (), w').
Proof.
  intros Hobj. unfold mirror_summary.
  destruct (PyStr.startswith "data:" line) eqn:Hd; [|by eexists].
  destruct (json_loads _) as [v|] eqn:Hv; [|by eexists].
  destruct (Hobj Hd v Hv) as [items ->].
  unfold bind, lift, ret, modify, utcnow_z. simpl.
  destruct (Py.eq_str _ _); by eexists.
Qed.

Lemma mirror_summary_non_object stream_url line w v :
  PyStr.startswith "data:" line = true →
  json_loads (PyStr.strip (PyStr.drop 5 line)) = Some v →
  (∀ items, v ≠ JObj items) →
  mirror_summary stream_url line w
  = (Raise (AttributeError (Py.type_name v) "get"), w).
Proof.
  intros H1 H2 Hv. unfold mirror_summary. rewrite H1, H2.
  destruct v; try done. by destruct (Hv items).
Qed.

Lemma pull_blank rest fin w : pull ("" :: rest) fin w = pull rest fin w.
Proof. reflexivity. Qed.

Lemma pull_line line rest fin w :
  line ≠ "" →
  pull (line :: rest) fin w = (Some (line +:+ newline), AtLine line rest fin, w).
Proof. intros H. unfold pull. simpl. by destruct line. Qed.

Lemma drain_blank n stream_url rest fin w :
  drain n stream_url (Fresh ("" :: rest) fin) w
  = drain n stream_url (Fresh rest fin) w.
Proof. destruct n; [done|]. simpl. by rewrite pull_blank. Qed.

Lemma drain_line n stream_url line rest fin w :
  line ≠ "" →
  drain (S n) stream_url (Fresh (line :: rest) fin) w
  = ((line +:+ newline) :: (drain n stream_url (AtLine line rest fin) w).1,
     (drain n stream_url (AtLine line rest fin) w).2).
Proof.
  intros H. simpl. rewrite pull_line by done.
  by destruct (drain n _ _ _).
Qed.

Lemma drain_resume n stream_url line rest fin w w' :
  mirror_summary stream_url line w = (Ret (), w') →
  drain (S n) stream_url (AtLine line rest fin) w
  = drain (S n) stream_url (Fresh rest fin) w'.
Proof. intros H. simpl. by rewrite H. Qed.

Lemma drain_abort n stream_url line rest fin w w' e :
  mirror_summary stream_url line w = (Raise e, w') →
  drain (S (S n)) stream_url (AtLine line rest fin) w
  = ([error_frame (Py.str_exn e)], w').
Proof. intros H. simpl. by rewrite H. Qed.

Lemma drain_end n stream_url fin w :
  drain (S (S n)) stream_url (Fresh [] fin) w = (closing_frames fin, w).
Proof. by destruct fin. Qed.

(** With enough reads, the relay forwards the lines that are not empty,
    in order, and closes with the error frame when the upstream broke,
    as long as no line makes the mirroring raise. *)
Lemma drain_frames stream_url fin lines :
  Forall object_payload lines →
  ∀ n w, length lines + 2 ≤ n →
  (drain n stream_url (Fresh lines fin) w).1
  = map (λ l, l +:+ newline) (filter (λ l, l ≠ "") lines) ++ closing_frames fin.
Proof.
  induction 1 as [|line rest Hline _ IH]; intros n w Hn.
  - destruct n as [|[|n]]; simpl in Hn; try lia. by rewrite drain_end.
  - simpl in Hn. destruct (decide (line = "")) as [->|Hne].
    + rewrite drain_blank, filter_cons_False by naive_solver.
      apply IH. lia.
    + rewrite filter_cons_True by done.
      destruct n as [|n]; [lia|]. rewrite drain_line by done.
      destruct (mirror_summary_object stream_url line w Hline) as [w' Hw'].
      destruct n as [|n]; [lia|]. rewrite (drain_resume _ _ _ _ _ _ _ Hw').
      cbn [fst]. by rewrite IH by lia.
Qed.

Lemma data_line_not_empty line :
  PyStr.startswith "data:" line = true → line ≠ "".
Proof. by intros H ->. Qed.

(** C3 (amended). The frames the relay sends are the upstream lines that
    are not empty, in upstream order, each followed by one newline, none
    of them dropped, repeated or merged, whatever the stores hold and
    whatever the mirroring adds to them; empty lines are not forwarded.
    This is for upstream sequences in which every [data:] payload that is
    JSON is an object. *)
Theorem relay_forwards_lines stream_url lines fin w :
  Forall object_payload lines →
  (relay stream_url lines fin w).1
  = map (λ l, l +:+ newline) (filter (λ l, l ≠ "") lines) ++ closing_frames fin.
Proof. intros H. apply drain_frames; [done|lia]. Qed.

(** C4. What the relay does when the upstream delivers a [data:] line
    whose payload is JSON but not an object: it forwards that line, then
    sends an error frame with the text of the [AttributeError] and stops;
    the lines after it, and the failure of the upstream itself, are never
    seen downstream. *)
Theorem relay_aborts_on_non_object_payload stream_url line rest fin w v :
  PyStr.startswith "data:" line = true →
  json_loads (PyStr.strip (PyStr.drop 5 line)) = Some v →
  (∀ items, v ≠ JObj items) →
  relay stream_url (line :: rest) fin w
  = ([ line +:+ newline;
       error_frame ("'" +:+ Py.type_name v +:+ "' object has no attribute 'get'") ],
     w).
Proof.
  intros Hd Hv Hno. unfold relay.
  replace (length (line :: rest) + 2) with (S (S (S (length rest))))
    by (simpl; lia).
  rewrite drain_line by by apply data_line_not_empty.
  by rewrite (drain_abort _ _ _ _ _ _ _ _
                (mirror_summary_non_object stream_url line w v Hd Hv Hno)).
Qed.

(** When no line makes the mirroring raise, the relay does what C4 asks:
    the two lines, one error frame with the cause, and nothing more. *)
Corollary relay_resilient stream_url a b msg w :
  a ≠ "" → b ≠ "" → object_payload a → object_payload b →
  (relay stream_url [a; b] (Broken msg) w).1
  = [ a +:+ newline; b +:+ newline; error_frame msg ].
Proof.
  intros Ha Hb Hoa Hob. unfold relay.
  rewrite drain_frames by (repeat constructor; done || (simpl; lia)).
  by rewrite !filter_cons_True by done.
Qed.

(** C5. A [data:] line whose payload is not JSON is not fatal.  In the
    digest relay the mirroring of such a line changes nothing at all, and
    the run over the line and the rest of the stream is the line itself,
    with its newline, followed by the run over the rest from the same
    stores.  In [start_monitor_sse] the line yields the event
    [{"raw": <text>}] and the events of the rest follow. *)
Theorem malformed_payload_not_fatal stream_url line rest fin w :
  PyStr.startswith "data:" line = true →
  json_loads (PyStr.strip (PyStr.drop 5 line)) = None →
  mirror_summary stream_url line w = (Ret (), w)
  ∧ relay stream_url (line :: rest) fin w
    = ((line +:+ newline) :: (relay stream_url rest fin w).1,
       (relay stream_url rest fin w).2)
  ∧ TrioClient.start_monitor_sse (line :: rest)
    = JObj [ ("raw", JStr (PyStr.strip (PyStr.drop 5 line))) ]
      :: TrioClient.start_monitor_sse rest.
Proof.
  intros Hd Hv.
  pose proof (mirror_summary_malformed stream_url line w Hd Hv) as Hm.
  split; [done|]. split.
  - unfold relay.
    replace (length (line :: rest) + 2) with (S (S (length rest + 1)))
      by (simpl; lia).
    rewrite drain_line by by apply data_line_not_empty.
    rewrite (drain_resume _ _ _ _ _ _ _ Hm).
    by replace (S (length rest + 1)) with (length rest + 2) by lia.
  - unfold TrioClient.start_monitor_sse. simpl.
    unfold TrioClient.monitor_event at 1. rewrite Hd, Hv.
    by destruct line.
Qed.

End RelayFacts.

Lemma relay_forwards_lines_witness :
  (App.relay (lib:=sample_lib) "https://cam.example/live"
     ["event: digest"; ""; summary_line; "data: [DONE]"] Exhausted init_world).1
  = [ "event: digest" +:+ newline; summary_line +:+ newline;
      "data: [DONE]" +:+ newline ].
Proof.
  apply (relay_forwards_lines (lib:=sample_lib)).
  repeat constructor; intros Hd v Hv; vm_compute in Hd, Hv;
    first [discriminate | injection Hv as <-; eauto].
Defined.

(** C3, as stated, fails: an empty upstream line is not forwarded. *)
Lemma relay_skips_blank_lines :
  (App.relay (lib:=sample_lib) "https://cam.example/live"
     ["a"; ""; "b"] Exhausted init_world).1
  = [ "a" +:+ newline; "b" +:+ newline ]
  ∧ (App.relay (lib:=sample_lib) "https://cam.example/live"
       ["a"; ""; "b"] Exhausted init_world).1
    ≠ map (λ l, l +:+ newline) ["a"; ""; "b"].
Proof. split; [reflexivity|]. vm_compute. discriminate. Qed.

Lemma relay_aborts_on_non_object_payload_witness :
  App.relay (lib:=sample_lib) "https://cam.example/live"
    ["data: 5"; "b"] (Broken "Read timed out.") init_world
  = ([ "data: 5" +:+ newline;
       App.error_frame "'int' object has no attribute 'get'" ],
     init_world).
Proof.
  apply (relay_aborts_on_non_object_payload (lib:=sample_lib)
           "https://cam.example/live" "data: 5" ["b"] (Broken "Read timed out.")
           init_world (JNum 5)).
  - reflexivity.
  - reflexivity.
  - discriminate.
Defined.

Lemma malformed_payload_not_fatal_witness :
  App.mirror_summary (lib:=sample_lib) "https://cam.example/live" "data: [DONE]"
    init_world = (Ret (), init_world)
  ∧ TrioClient.start_monitor_sse (lib:=sample_lib) ["data: [DONE]"; summary_line]
    = [ JObj [ ("raw", JStr "[DONE]") ];
        JObj [ ("type", JStr "summary"); ("summary", JStr "All calm") ] ].
Proof.
  destruct (malformed_payload_not_fatal (lib:=sample_lib)
              "https://cam.example/live" "data: [DONE]" [summary_line]
              Exhausted init_world) as (Hm & _ & He); [reflexivity..|].
  split; [exact Hm|]. rewrite He. reflexivity.
Defined.

(** ** The bounded logs *)

Section ListFacts.
Context {A : Type}.
Implicit Types (r : A) (l rs : list A).

Lemma pop_cons r l : l ≠ [] → pop (r :: l) = r :: pop l.
Proof. by destruct l. Qed.

Lemma pop_take l : pop l = take (length l - 1) l.
Proof.
  unfold pop. rewrite removelast_firstn_len. f_equal. lia.
Qed.

(** Insert-then-trim keeps the new record first and a prefix of the old
    records behind it. *)
Lemma trim200_insert0 r l :
  trim200 (insert0 r l)
  = r :: take (if 200 <=? length l then length l - 1 else length l) l.
Proof.
  unfold trim200, insert0. simpl length.
  destruct (200 <=? length l) eqn:E.
  - apply Nat.leb_le in E.
    replace (200 <? S (length l)) with true by (symmetry; apply Nat.ltb_lt; lia).
    rewrite pop_cons by (intros ->; simpl in E; lia). by rewrite pop_take.
  - apply Nat.leb_gt in E.
    replace (200 <? S (length l)) with false by (symmetry; apply Nat.ltb_ge; lia).
    by rewrite firstn_all.
Qed.

Lemma trim200_insert0_head r l : trim200 (insert0 r l) !! 0 = Some r.
Proof. by rewrite trim200_insert0. Qed.

Lemma trim200_insert0_bounded r l :
  length l ≤ 200 → trim200 (insert0 r l) = take 200 (r :: l).
Proof.
  intros H. rewrite trim200_insert0.
  change (take 200 (r :: l)) with (r :: take 199 l).
  destruct (200 <=? length l) eqn:E.
  - apply Nat.leb_le in E. by replace (length l - 1) with 199 by lia.
  - apply Nat.leb_gt in E. by rewrite !take_ge by lia.
Qed.

Lemma trim200_insert0_length r l :
  length l ≤ 200 → length (trim200 (insert0 r l)) = min (S (length l)) 200.
Proof.
  intros H. rewrite trim200_insert0_bounded, length_take by done.
  cbn [length]. lia.
Qed.

Lemma take_app_take n (l1 l2 : list A) :
  take n (l1 ++ take n l2) = take n (l1 ++ l2).
Proof. rewrite !take_app, take_take. do 2 f_equal. lia. Qed.

Lemma insert_all_trimmed_take rs l :
  length l ≤ 200 → insert_all_trimmed rs l = take 200 (reverse rs ++ l).
Proof.
  revert l. induction rs as [|r rs IH]; intros l Hl.
  - simpl. by rewrite take_ge.
  - unfold insert_all_trimmed in *. simpl foldl.
    rewrite IH by (rewrite trim200_insert0_length by done; lia).
    rewrite trim200_insert0_bounded by done.
    rewrite take_app_take. by rewrite reverse_cons, <- app_assoc.
Qed.

Lemma insert_all_reverse rs l : insert_all rs l = reverse rs ++ l.
Proof.
  revert l. induction rs as [|r rs IH]; intros l; [done|].
  unfold insert_all in *. simpl foldl. rewrite IH.
  by rewrite reverse_cons, <- app_assoc.
Qed.

End ListFacts.

Section StoreFacts.
Context {lib : PyLib}.
Import App.

Ltac run_handler :=
  unfold safety_check, create_webhook_site_token, start_monitor, stop_monitor,
    webhook_receiver, clear_alerts, start_digest, mirror_summary,
    bind, lift, ret, modify, read, utcnow_z, uuid8;
  cbv zeta; repeat case_match; simplify_eq/=; eauto 10.

Lemma safety_check_alerts body reply w :
  alert_history (safety_check body reply w).2 = alert_history w
  ∨ ∃ r, alert_history (safety_check body reply w).2
         = trim200 (insert0 r (alert_history w)).
Proof. run_handler. Qed.

Lemma webhook_receiver_alerts body w :
  alert_history (webhook_receiver body w).2 = alert_history w
  ∨ ∃ r, alert_history (webhook_receiver body w).2
         = insert0 r (alert_history w).
Proof. run_handler. Qed.

Lemma webhook_receiver_events body w :
  webhook_events (webhook_receiver body w).2 = webhook_events w
  ∨ ∃ r, webhook_events (webhook_receiver body w).2
         = trim200 (insert0 r (webhook_events w)).
Proof. run_handler. Qed.

Lemma mirror_summary_digests stream_url line w :
  digest_summaries (mirror_summary stream_url line w).2 = digest_summaries w
  ∨ ∃ r, digest_summaries (mirror_summary stream_url line w).2
         = insert0 r (digest_summaries w).
Proof. run_handler. Qed.

(** What one read of the generator does to the stores: nothing, or the
    mirroring of one line. *)
Lemma generate_next_world stream_url s w :
  (generate_next stream_url s w).2 = w
  ∨ ∃ line, (generate_next stream_url s w).2 = (mirror_summary stream_url line w).2.
Proof.
  destruct s as [lines fin|line lines fin| |]; simpl; try by left.
  - left. unfold pull. by case_match.
  - right. exists line. destruct (mirror_summary _ _ _) as [[[]|e] w']; [|done].
    unfold pull. by case_match.
Qed.

(** A store the mirroring leaves alone is left alone by the whole run. *)
Lemma drain_unchanged {B} (f : World → B) stream_url :
  (∀ line w, f (mirror_summary stream_url line w).2 = f w) →
  ∀ n s w, f (drain n stream_url s w).2 = f w.
Proof.
  intros Hm. induction n as [|n IH]; intros s w; [done|]. simpl.
  destruct (generate_next stream_url s w) as [[[frame|] s'] w'] eqn:E.
  - specialize (IH s' w'). destruct (drain n _ _ _). simpl in *. rewrite IH.
    destruct (generate_next_world stream_url s w) as [H|[line H]];
      rewrite E in H; simpl in H; by rewrite H.
  - simpl. destruct (generate_next_world stream_url s w) as [H|[line H]];
      rewrite E in H; simpl in H; by rewrite H.
Qed.

(** The run only adds records at the front of [digest_summaries]. *)
Lemma drain_digests stream_url n :
  ∀ s w, ∃ rs, digest_summaries (drain n stream_url s w).2
               = rs ++ digest_summaries w.
Proof.
  induction n as [|n IH]; intros s w; [by exists []|]. simpl.
  assert (∃ rs, digest_summaries (generate_next stream_url s w).2
                = rs ++ digest_summaries w) as [rs1 H1].
  { destruct (generate_next_world stream_url s w) as [->|[line ->]];
      [by exists []|].
    destruct (mirror_summary_digests stream_url line w) as [->|[r ->]];
      [by exists []|by exists [r]]. }
  destruct (generate_next stream_url s w) as [[[frame|] s'] w'];
    simpl in *; [|by eauto].
  destruct (IH s' w') as [rs2 H2]. destruct (drain n _ _ _). simpl in *.
  exists (rs2 ++ rs1). by rewrite H2, H1, app_assoc.
Qed.

Lemma exec_webhook_events op w :
  webhook_events (exec op w) = webhook_events w
  ∨ ∃ r, webhook_events (exec op w) = trim200 (insert0 r (webhook_events w)).
Proof.
  destruct op; simpl; try (left; by run_handler).
  - apply webhook_receiver_events.
  - left. unfold start_digest, bind, lift, ret. cbv zeta.
    repeat case_match; simplify_eq/=; try done.
    apply (drain_unchanged webhook_events). intros. by run_handler.
Qed.

Lemma exec_all_webhook_events ops :
  ∀ w, length (webhook_events w) ≤ 200 →
       length (webhook_events (exec_all ops w)) ≤ 200.
Proof.
  induction ops as [|op ops IH]; intros w Hw; [done|].
  apply IH. destruct (exec_webhook_events op w) as [->|[r ->]]; [done|].
  rewrite trim200_insert0_length by done. lia.
Qed.

(** C2 (amended).  Every insertion by [safety_check], [webhook_receiver]
    or the digest relay puts the new record at position 0 and leaves the
    older records behind it in their order, so each log is newest first.
    [webhook_events] never holds more than 200 records, and N insertions
    into an empty log that is trimmed leave the min(N, 200) newest;
    [safety_check] trims [alert_history] the same way.
    [digest_summaries] is not trimmed: N insertions into the empty log
    leave N records. *)
Theorem bounded_logs_newest_first :
  (∀ body reply w,
      alert_history (safety_check body reply w).2 = alert_history w
      ∨ ∃ r, alert_history (safety_check body reply w).2
             = trim200 (insert0 r (alert_history w)))
  ∧ (∀ body w,
        (alert_history (webhook_receiver body w).2 = alert_history w
         ∨ ∃ r, alert_history (webhook_receiver body w).2
                = insert0 r (alert_history w))
        ∧ (webhook_events (webhook_receiver body w).2 = webhook_events w
           ∨ ∃ r, webhook_events (webhook_receiver body w).2
                  = trim200 (insert0 r (webhook_events w))))
  ∧ (∀ stream_url line w,
        digest_summaries (mirror_summary stream_url line w).2 = digest_summaries w
        ∨ ∃ r, digest_summaries (mirror_summary stream_url line w).2
               = insert0 r (digest_summaries w))
  ∧ (∀ (r : json) l,
        trim200 (insert0 r l) !! 0 = Some r
        ∧ (∃ k, trim200 (insert0 r l) = r :: take k l)
        ∧ (length l ≤ 200 → trim200 (insert0 r l) = take 200 (r :: l)))
  ∧ (∀ rs : list json,
        insert_all_trimmed rs [] = take 200 (reverse rs)
        ∧ length (insert_all_trimmed rs []) = min (length rs) 200)
  ∧ (∀ rs : list json,
        insert_all rs [] = reverse rs ∧ length (insert_all rs []) = length rs)
  ∧ (∀ ops, length (webhook_events (exec_all ops init_world)) ≤ 200).
Proof.
  split; [apply safety_check_alerts|].
  split; [split; [apply webhook_receiver_alerts|apply webhook_receiver_events]|].
  split; [apply mirror_summary_digests|].
  split.
  { intros r l. split; [apply trim200_insert0_head|].
    split; [rewrite trim200_insert0; eauto|apply trim200_insert0_bounded]. }
  split.
  { intros rs.
    rewrite insert_all_trimmed_take, app_nil_r by (simpl; lia).
    split; [done|]. rewrite length_take, length_reverse. lia. }
  split.
  { intros rs. rewrite insert_all_reverse, app_nil_r.
    by rewrite length_reverse. }
  intros ops. apply exec_all_webhook_events. simpl. lia.
Qed.

(** ** The job table *)

Lemma stop_monitor_monitors body reply w :
  active_monitors (stop_monitor body reply w).2 = active_monitors w
  ∨ ∃ job_id,
      active_monitors (stop_monitor body reply w).2
      = alter (Py.assoc_set "status" (JStr "stopped")) (KStr job_id)
          (active_monitors w).
Proof. run_handler. Qed.

Lemma webhook_receiver_monitors body w :
  active_monitors (webhook_receiver body w).2 = active_monitors w
  ∨ ∃ key type data status,
      Py.get (Py.or_else body (JObj [])) "type" (JStr "unknown") = Ret type
      ∧ Py.eq_str type "job_stopped" || Py.eq_str type "job_completed"
        || Py.eq_str type "job_failed" = true
      ∧ Py.get (Py.or_else body (JObj [])) "data" (JObj []) = Ret data
      ∧ Py.get data "status" (JStr "stopped") = Ret status
      ∧ active_monitors (webhook_receiver body w).2
        = alter (Py.assoc_set "status" status) key (active_monitors w).
Proof.
  unfold webhook_receiver, bind, lift, ret, modify, read, utcnow_z, uuid8.
  cbv zeta. repeat case_match; simplify_eq/=; eauto;
    right; do 4 eexists; repeat split; eauto.
Qed.

Lemma start_monitor_monitors body url_root reply w :
  active_monitors (start_monitor body url_root reply w).2 = active_monitors w
  ∨ ∃ key entry job_id,
      hash_key job_id = Ret key
      ∧ Py.assoc "job_id" entry = Some job_id
      ∧ active_monitors (start_monitor body url_root reply w).2
        = <[key := entry]> (active_monitors w).
Proof.
  unfold start_monitor, bind, lift, ret, modify, read, utcnow_z, uuid8.
  cbv zeta. repeat case_match; simplify_eq/=; eauto;
    right; do 3 eexists; repeat split; eauto.
Qed.

Lemma assoc_set_other field v entry :
  field ≠ "status" →
  Py.assoc field (Py.assoc_set "status" v entry) = Py.assoc field entry.
Proof.
  intros Hf. induction entry as [|[k x] entry IH].
  - cbn [Py.assoc_set Py.assoc]. by destruct (String.eqb_spec field "status").
  - cbn [Py.assoc_set]. destruct (String.eqb_spec "status" k) as [<-|Hk].
    + cbn [Py.assoc]. by destruct (String.eqb_spec field "status").
    + cbn [Py.assoc]. by rewrite IH.
Qed.

Lemma assoc_set_same v entry :
  Py.assoc "status" (Py.assoc_set "status" v entry) = Some v.
Proof.
  induction entry as [|[k x] entry IH]; [done|].
  cbn [Py.assoc_set]. destruct (String.eqb_spec "status" k) as [<-|Hk].
  - done.
  - cbn [Py.assoc]. by destruct (String.eqb_spec "status" k).
Qed.

(** C9 (amended).  An entry of [active_monitors] is never deleted: after
    any request its key is still there.  [stop_monitor] and
    [webhook_receiver] (on a job_stopped, job_completed or job_failed
    event) change at most its status field: [stop_monitor] sets it to
    "stopped", [webhook_receiver] to whatever [data.status] of the
    payload is ("stopped" when it is missing).  A later [start_monitor]
    leaves the entry alone or, when the upstream answers with the same
    job id, puts a new entry in its place.  No other request changes
    the entry. *)
Theorem job_entries_kept :
  (∀ op w key entry,
      active_monitors w !! key = Some entry →
      ∃ entry',
        active_monitors (exec op w) !! key = Some entry'
        ∧ match op with
          | OpStartMonitor _ _ _ =>
              entry' = entry
              ∨ ∃ job_id, hash_key job_id = Ret key
                          ∧ Py.assoc "job_id" entry' = Some job_id
          | OpStopMonitor _ _ =>
              entry' = entry
              ∨ entry' = Py.assoc_set "status" (JStr "stopped") entry
          | OpWebhook body =>
              entry' = entry
              ∨ ∃ type data status,
                  Py.get (Py.or_else body (JObj [])) "type" (JStr "unknown")
                  = Ret type
                  ∧ Py.eq_str type "job_stopped"
                    || Py.eq_str type "job_completed"
                    || Py.eq_str type "job_failed" = true
                  ∧ Py.get (Py.or_else body (JObj [])) "data" (JObj [])
                    = Ret data
                  ∧ Py.get data "status" (JStr "stopped") = Ret status
                  ∧ entry' = Py.assoc_set "status" status entry
          | _ => entry' = entry
          end)
  ∧ (∀ field v entry,
        field ≠ "status" →
        Py.assoc field (Py.assoc_set "status" v entry) = Py.assoc field entry)
  ∧ (∀ v entry, Py.assoc "status" (Py.assoc_set "status" v entry) = Some v).
Proof.
  split; [|split; [apply assoc_set_other|apply assoc_set_same]].
  intros op w key entry Hk. destruct op; simpl.
  - exists entry. split; [|done].
    replace (active_monitors _) with (active_monitors w); [done|].
    symmetry. by run_handler.
  - exists entry. split; [|done].
    replace (active_monitors _) with (active_monitors w); [done|].
    symmetry. by run_handler.
  - destruct (start_monitor_monitors body url_root reply w)
      as [->|(key' & new & job_id & Hh & Hj & ->)]; [by eauto|].
    destruct (decide (key' = key)) as [->|Hne].
    + exists new. rewrite lookup_insert_eq. eauto 6.
    + exists entry. rewrite lookup_insert_ne by done. eauto.
  - destruct (stop_monitor_monitors body reply w) as [->|(job_id & ->)];
      [by eauto|].
    rewrite lookup_alter. case_decide; subst; rewrite Hk; simpl; eauto.
  - destruct (webhook_receiver_monitors body w)
      as [->|(key' & type & data & status & H1 & H2 & H3 & H4 & ->)];
      [by eauto|].
    rewrite lookup_alter. case_decide; subst; rewrite Hk; simpl; [|by eauto].
    eexists. split; [done|]. right. by exists type, data, status.
  - exists entry. split; [|done].
    replace (active_monitors _) with (active_monitors w); [done|].
    symmetry. by run_handler.
  - exists entry. split; [|done].
    replace (active_monitors _) with (active_monitors w); [done|].
    symmetry. unfold start_digest, bind, lift, ret. cbv zeta.
    repeat case_match; simplify_eq/=; try done.
    apply (drain_unchanged active_monitors). intros. by run_handler.
Qed.

End StoreFacts.

(** ** The one-shot check *)

Section CheckFacts.
Context {lib : PyLib}.
Import App.

(** C6. A one-shot check whose upstream call succeeds with
    [{triggered: true, explanation: "Child near pool edge", latency_ms: 420}]
    answers with an alert record whose danger level is "high", whose
    [triggered], [explanation] and [latency_ms] are those of the reply
    and whose [stream_url] and [condition] are those the check was made
    with (the values of the request, stripped), and that record is at
    position 0 of [alert_history] afterwards. *)
Theorem safety_check_pool_alert (w : World) (stream_url condition : string) :
  PyStr.strip stream_url ≠ "" →
  PyStr.strip condition ≠ "" →
  let record :=
    JObj [ ("id", JStr (PyStr.take 8 (uuid4_str (uuid_draws w))));
           ("timestamp", JStr (utcnow_isoformat (clock_reads w) +:+ "Z"));
           ("stream_url", JStr (PyStr.strip stream_url));
           ("condition", JStr (PyStr.strip condition));
           ("triggered", JBool true);
           ("explanation", JStr "Child near pool edge");
           ("latency_ms", JNum 420);
           ("danger_level", JStr "high") ] in
  ∃ w',
    safety_check
      (JObj [ ("stream_url", JStr stream_url); ("condition", JStr condition) ])
      (Replied (JObj [ ("triggered", JBool true);
                       ("explanation", JStr "Child near pool edge");
                       ("latency_ms", JNum 420) ]))
      w
    = (Ret (record, 200), w')
    ∧ alert_history w' = trim200 (insert0 record (alert_history w))
    ∧ alert_history w' !! 0 = Some record.
Proof.
  intros Hs Hc record.
  apply not_empty_iff in Hs, Hc.
  unfold safety_check, bind, lift, ret, modify, utcnow_z, uuid8. cbv zeta.
  cbn -[trim200 insert0 PyStr.strip]. rewrite Hs, Hc. cbn -[trim200 insert0 PyStr.strip].
  eexists. split; [reflexivity|]. cbn -[trim200 insert0 PyStr.strip].
  split; [done|]. apply trim200_insert0_head.
Qed.

End CheckFacts.

Lemma safety_check_pool_alert_witness :
  ∃ w',
    App.safety_check (lib:=sample_lib)
      (JObj [ ("stream_url", JStr "https://cam.example/live");
              ("condition", JStr "Is a child near water?") ])
      (Replied (JObj [ ("triggered", JBool true);
                       ("explanation", JStr "Child near pool edge");
                       ("latency_ms", JNum 420) ]))
      init_world
    = (Ret (JObj [ ("id", JStr "123e4567");
                   ("timestamp", JStr "2024-05-01T12:00:00.0Z");
                   ("stream_url", JStr "https://cam.example/live");
                   ("condition", JStr "Is a child near water?");
                   ("triggered", JBool true);
                   ("explanation", JStr "Child near pool edge");
                   ("latency_ms", JNum 420);
                   ("danger_level", JStr "high") ], 200), w').
Proof.
  destruct (safety_check_pool_alert (lib:=sample_lib) init_world
              "https://cam.example/live" "Is a child near water?")
    as (w' & H & _); [discriminate..|].
  exists w'. exact H.
Defined.

(** ** Stream validation *)

Lemma validate_stream_live result :
  TrioClient.validate_stream (Replied result)
  = Ret (JObj [ ("valid", JBool true);
                ("message", JStr "Stream is live and accessible");
                ("details", result) ]).
Proof. reflexivity. Qed.

Lemma validate_stream_structured msg items fields :
  Py.assoc "error" items = Some (JObj fields) →
  TrioClient.validate_stream (HTTPError msg (Some (JObj items)))
  = Ret (JObj [ ("valid", JBool false);
                ("message", from_option id (JStr msg) (Py.assoc "message" fields));
                ("remediation",
                 from_option id (JStr "") (Py.assoc "remediation" fields)) ]).
Proof. intros H. unfold TrioClient.validate_stream. simpl. by rewrite H. Qed.

Lemma validate_stream_no_error_field msg items :
  Py.assoc "error" items = None →
  TrioClient.validate_stream (HTTPError msg (Some (JObj items)))
  = Ret (JObj [ ("valid", JBool false); ("message", JStr msg);
                ("remediation", JStr "") ]).
Proof. intros H. unfold TrioClient.validate_stream. simpl. by rewrite H. Qed.

Lemma validate_stream_unparsed msg :
  TrioClient.validate_stream (HTTPError msg None)
  = Ret (JObj [ ("valid", JBool false); ("message", JStr msg);
                ("remediation", JStr "") ]).
Proof. reflexivity. Qed.

Lemma validate_stream_transport msg :
  TrioClient.validate_stream (RequestException msg)
  = Ret (JObj [ ("valid", JBool false); ("message", JStr msg) ]).
Proof. reflexivity. Qed.

Lemma validate_stream_non_dict_body msg body :
  (∀ items, body ≠ JObj items) →
  TrioClient.validate_stream (HTTPError msg (Some body))
  = Raise (AttributeError (Py.type_name body) "get").
Proof. intros H. destruct body; try done. by destruct (H items). Qed.

(** C7. Where [validate_stream] raises: the upstream answers with an error
    status and a JSON object whose [error] member is not itself an object
    (a plain string, say).  The handler of [HTTPError] then calls [.get] on
    that member and the [AttributeError] leaves [validate_stream]. *)
Theorem validate_stream_raises msg items err :
  Py.assoc "error" items = Some err →
  (∀ fields, err ≠ JObj fields) →
  TrioClient.validate_stream (HTTPError msg (Some (JObj items)))
  = Raise (AttributeError (Py.type_name err) "get").
Proof.
  intros H Hno. unfold TrioClient.validate_stream. simpl. rewrite H. simpl.
  destruct err; try done. by destruct (Hno items0).
Qed.

Lemma validate_stream_raises_witness :
  TrioClient.validate_stream
    (HTTPError
       "401 Client Error: Unauthorized for url: https://trio.machinefi.com/api/check-once"
       (Some (JObj [ ("error", JStr "Unauthorized") ])))
  = Raise (AttributeError "str" "get").
Proof.
  apply (validate_stream_raises _ [ ("error", JStr "Unauthorized") ]
           (JStr "Unauthorized")).
  - reflexivity.
  - discriminate.
Defined.

(** ** The logs and the job table on concrete runs *)

Lemma bounded_logs_newest_first_witness :
  trim200 (insert0 (JStr "new") [JStr "old"]) = [JStr "new"; JStr "old"]
  ∧ length (insert_all_trimmed (replicate 201 JNull) []) = 200.
Proof.
  destruct (bounded_logs_newest_first (lib:=sample_lib))
    as (_ & _ & _ & H4 & H5 & _).
  split.
  - destruct (H4 (JStr "new") [JStr "old"]) as (_ & _ & H).
    apply H. simpl. lia.
  - destruct (H5 (replicate 201 JNull)) as [_ H]. rewrite H. reflexivity.
Defined.

(** C2, as stated, fails: the relay does not trim [digest_summaries]. *)
Lemma digest_summaries_exceed_cap :
  ¬ length (digest_summaries
              (App.relay (lib:=sample_lib) "https://cam.example/live"
                 (replicate 201 summary_line) Exhausted init_world).2) ≤ 200.
Proof.
  assert (length (digest_summaries
                    (App.relay (lib:=sample_lib) "https://cam.example/live"
                       (replicate 201 summary_line) Exhausted init_world).2)
          = 201) as -> by (vm_compute; reflexivity).
  lia.
Qed.

(** [webhook_receiver] inserts into [alert_history] without the trim that
    [safety_check] applies. *)
Lemma alert_history_untrimmed_by_webhook :
  length (alert_history
            (App.exec_all (lib:=sample_lib)
               (replicate 201 (App.OpWebhook triggered_event)) init_world))
  = 201
  ∧ length (webhook_events
              (App.exec_all (lib:=sample_lib)
                 (replicate 201 (App.OpWebhook triggered_event)) init_world))
    = 200.
Proof. split; vm_compute; reflexivity. Qed.

Lemma job_entries_kept_witness :
  ∃ entry',
    active_monitors
      (App.exec (lib:=sample_lib)
         (App.OpStopMonitor stop_request (Replied (JObj [ ("status", JStr "cancelled") ])))
         monitored_world) !! KStr "job-1" = Some entry'
    ∧ (entry' = job_entry
       ∨ entry' = Py.assoc_set "status" (JStr "stopped") job_entry).
Proof.
  apply (proj1 (job_entries_kept (lib:=sample_lib))
           (App.OpStopMonitor stop_request
              (Replied (JObj [ ("status", JStr "cancelled") ])))
           monitored_world (KStr "job-1") job_entry).
  vm_compute. reflexivity.
Defined.

(** C9, as stated, fails: the status a webhook sets is whatever the payload
    carries, here a value outside stopped, completed and failed. *)
Lemma job_status_outside_lifecycle :
  (active_monitors
     (App.exec (lib:=sample_lib) (App.OpWebhook paused_event) monitored_world)
     !! KStr "job-1") ≫= Py.assoc "status"
  = Some (JStr "paused")
  ∧ ¬ In (JStr "paused") [JStr "stopped"; JStr "completed"; JStr "failed"].
Proof.
  split; [vm_compute; reflexivity|].
  simpl. intros [H|[H|[H|[]]]]; discriminate.
Qed.

(** A second [start_monitor] answered with the same job id replaces the
    entry, with the stream URL of the new request. *)
Lemma job_entry_replaced_by_restart :
  (active_monitors
     (App.exec (lib:=sample_lib)
        (App.OpStartMonitor
           (JObj [ ("stream_url", JStr "rtsp://cam.example/kitchen");
                   ("condition", JStr "Is a child near the stove?") ])
           "http://localhost:5001/"
           (Replied (JObj [ ("job_id", JStr "job-1") ])))
        monitored_world)
     !! KStr "job-1") ≫= Py.assoc "stream_url"
  = Some (JStr "rtsp://cam.example/kitchen").
Proof. vm_compute. reflexivity. Qed.

(** * Further properties of the code *)

(** ** The classifier on values of any type and in any letter case *)

Lemma classify_danger_range triggered condition explanation tier :
  classify_danger triggered condition explanation = Ret tier →
  In tier ["safe"; "medium"; "high"].
Proof.
  unfold classify_danger. destruct (negb _); [intros [= <-]; simpl; tauto|].
  destruct (Py.lower _); [|done].
  destruct (existsb _ _); intros [= <-]; simpl; tauto.
Qed.

(** X1. The keyword test does not depend on letter case: an explanation
    in which a word occurs that lower-cases to a keyword is classified
    "high" when [triggered] is true. *)
Theorem classify_danger_any_case (condition : json) (word pre post : string) :
  In (PyStr.lower word) high_keywords →
  classify_danger (JBool true) condition (JStr (pre +:+ word +:+ post)) = Ret "high".
Proof.
  intros Hin. unfold classify_danger. cbn [Py.truthy negb Py.lower].
  assert (existsb (λ k, PyStr.contains k (PyStr.lower (pre +:+ word +:+ post)))
            high_keywords = true) as ->; [|done].
  apply mentions_keyword. exists (PyStr.lower word). split; [done|].
  exists (PyStr.lower pre), (PyStr.lower post). by rewrite !lower_app.
Qed.

Lemma classify_danger_any_case_witness :
  classify_danger (JBool true) (JStr "Any sharp objects?")
    (JStr "A KNIFE is on the table") = Ret "high".
Proof.
  apply (classify_danger_any_case (JStr "Any sharp objects?")
           "KNIFE" "A " " is on the table").
  simpl; tauto.
Defined.

(** X2. [classify_danger] looks at [triggered] only through its truth
    value: any falsy value gives "safe" whatever the explanation is, also
    one that is no string; with a truthy [triggered], an explanation that
    is not a string raises the [AttributeError] of [.lower()]; and two
    values of [triggered] with the same truth value give the same
    result. *)
Theorem classify_danger_truthiness (triggered triggered' condition explanation : json) :
  (Py.truthy triggered = false →
   classify_danger triggered condition explanation = Ret "safe")
  ∧ (Py.truthy triggered = true →
     (∀ s, explanation ≠ JStr s) →
     classify_danger triggered condition explanation
     = Raise (AttributeError (Py.type_name explanation) "lower"))
  ∧ (Py.truthy triggered = Py.truthy triggered' →
     classify_danger triggered condition explanation
     = classify_danger triggered' condition explanation).
Proof.
  unfold classify_danger. split; [by intros ->|]. split.
  - intros -> He. simpl. destruct explanation; try done. by destruct (He s).
  - by intros ->.
Qed.

Lemma classify_danger_truthiness_witness :
  classify_danger (JNum 0) (JStr "x") JNull = Ret "safe"
  ∧ classify_danger (JStr "yes") (JStr "x") JNull
    = Raise (AttributeError "NoneType" "lower")
  ∧ classify_danger (JNum 1) (JStr "x") (JStr "near the pool")
    = classify_danger (JBool true) (JStr "x") (JStr "near the pool").
Proof.
  split; [|split].
  - destruct (classify_danger_truthiness (JNum 0) (JNum 0) (JStr "x") JNull)
      as (H & _). apply H. reflexivity.
  - destruct (classify_danger_truthiness (JStr "yes") (JStr "yes") (JStr "x") JNull)
      as (_ & H & _). apply H; [reflexivity|discriminate].
  - destruct (classify_danger_truthiness (JNum 1) (JBool true) (JStr "x")
                (JStr "near the pool")) as (_ & _ & H).
    apply H. reflexivity.
Defined.

(** ** [POST /api/check]: validation, failure and what is stored *)

Section CheckMore.
Context {lib : PyLib}.
Import App.

Ltac run_check :=
  unfold safety_check, bind, lift, ret, modify, read, utcnow_z, uuid8;
  cbv zeta.

(** X3. The validation of [POST /api/check], which comes before anything
    else.  When [stream_url] and [condition] are strings (or absent) and
    one of them is missing, empty or blank, the request is answered 400.
    When one of them is present and not a string, [.strip()] raises
    [AttributeError]: for [stream_url] first, for [condition] otherwise,
    also when the other field is blank.  In all these cases the reply of
    the upstream is not looked at and no store, clock or uuid is
    touched. *)
Theorem safety_check_rejects_blank body reply w stream_url condition :
  Py.get (Py.or_else body (JObj [])) "stream_url" (JStr "") = Ret stream_url →
  Py.get (Py.or_else body (JObj [])) "condition" (JStr "") = Ret condition →
  match stream_url, condition with
  | JStr su, JStr c =>
      PyStr.strip su = "" ∨ PyStr.strip c = "" →
      safety_check body reply w
      = (Ret (error_body "stream_url and condition are required", 400), w)
  | JStr _, _ =>
      safety_check body reply w
      = (Raise (AttributeError (Py.type_name condition) "strip"), w)
  | _, _ =>
      safety_check body reply w
      = (Raise (AttributeError (Py.type_name stream_url) "strip"), w)
  end.
Proof.
  intros Hsu Hc. run_check. rewrite Hsu, Hc.
  destruct stream_url as [| | |su| |]; try reflexivity.
  destruct condition as [| | |c| |]; try reflexivity.
  intros Hblank. simpl.
  assert (PyStr.is_empty (PyStr.strip su) || PyStr.is_empty (PyStr.strip c) = true)
    as ->; [|done].
  destruct Hblank as [-> | ->]; [done|apply orb_true_r].
Qed.

(** X4. When the upstream call fails, a valid request is answered 502
    with the text of the exception, and nothing is stored or consumed. *)
Theorem safety_check_upstream_failure body reply w su c msg :
  Py.get (Py.or_else body (JObj [])) "stream_url" (JStr "") = Ret (JStr su) →
  Py.get (Py.or_else body (JObj [])) "condition" (JStr "") = Ret (JStr c) →
  PyStr.strip su ≠ "" → PyStr.strip c ≠ "" →
  (∃ b, reply = HTTPError msg b) ∨ reply = RequestException msg →
  safety_check body reply w = (Ret (error_body msg, 502), w).
Proof.
  intros Hsu Hc Hs Hcn Hr. apply not_empty_iff in Hs, Hcn.
  run_check. rewrite Hsu, Hc. simpl. rewrite Hs, Hcn. simpl.
  by destruct Hr as [[b ->] | ->].
Qed.

(** X5. [safety_check] stores exactly what it answers: when it answers
    200 the body of the answer is the record that was inserted (and then
    trimmed) into [alert_history]; when it answers anything else, or
    raises, the whole state is as before. *)
Theorem safety_check_stores_its_answer body reply w :
  match safety_check body reply w with
  | (Ret (r, code), w') =>
      (code = 200 ∧ alert_history w' = trim200 (insert0 r (alert_history w)))
      ∨ (code ≠ 200 ∧ w' = w)
  | (Raise _, w') => w' = w
  end.
Proof.
  run_check. repeat case_match; simplify_eq/=; try done;
    first [ left; split; reflexivity
          | right; split; [lia|reflexivity]
          | by destruct result ].
Qed.

(** X6. A reply without a [triggered] member counts as not triggered: the
    alert is stored with [triggered] false and danger level "safe",
    whatever the explanation says. *)
Theorem safety_check_missing_triggered body items w su c :
  Py.get (Py.or_else body (JObj [])) "stream_url" (JStr "") = Ret (JStr su) →
  Py.get (Py.or_else body (JObj [])) "condition" (JStr "") = Ret (JStr c) →
  PyStr.strip su ≠ "" → PyStr.strip c ≠ "" →
  Py.assoc "triggered" items = None →
  ∃ r w',
    safety_check body (Replied (JObj items)) w = (Ret (r, 200), w')
    ∧ Py.get r "triggered" JNull = Ret (JBool false)
    ∧ Py.get r "danger_level" JNull = Ret (JStr "safe")
    ∧ alert_history w' !! 0 = Some r.
Proof.
  intros Hsu Hc Hs Hcn Ht. apply not_empty_iff in Hs, Hcn.
  run_check. rewrite Hsu, Hc. simpl. rewrite Hs, Hcn. simpl. rewrite Ht. simpl.
  do 2 eexists. split; [reflexivity|]. repeat split.
  cbn [alert_history]. apply trim200_insert0_head.
Qed.

End CheckMore.

Lemma safety_check_rejects_blank_witness :
  App.safety_check (lib:=sample_lib)
    (JObj [ ("stream_url", JStr "https://cam.example/live"); ("condition", JStr "  ") ])
    (Replied (JObj [ ("triggered", JBool true) ])) init_world
  = (Ret (App.error_body "stream_url and condition are required", 400), init_world)
  ∧ App.safety_check (lib:=sample_lib)
      (JObj [ ("stream_url", JStr "  "); ("condition", JNum 5) ])
      (Replied (JObj [ ("triggered", JBool true) ])) init_world
    = (Raise (AttributeError "int" "strip"), init_world).
Proof.
  split.
  - apply (safety_check_rejects_blank (lib:=sample_lib) _ _ _
             (JStr "https://cam.example/live") (JStr "  ")); [reflexivity..|].
    right. reflexivity.
  - apply (safety_check_rejects_blank (lib:=sample_lib) _ _ _
             (JStr "  ") (JNum 5)); reflexivity.
Defined.

Lemma safety_check_upstream_failure_witness :
  App.safety_check (lib:=sample_lib)
    (JObj [ ("stream_url", JStr "https://cam.example/live");
            ("condition", JStr "Is a child near water?") ])
    (RequestException "Read timed out.") init_world
  = (Ret (App.error_body "Read timed out.", 502), init_world).
Proof.
  apply (safety_check_upstream_failure (lib:=sample_lib) _ _ _
           "https://cam.example/live" "Is a child near water?");
    [reflexivity|reflexivity|discriminate|discriminate|].
  right. reflexivity.
Defined.

Lemma safety_check_missing_triggered_witness :
  ∃ r w',
    App.safety_check (lib:=sample_lib)
      (JObj [ ("stream_url", JStr "https://cam.example/live");
              ("condition", JStr "Is a child near water?") ])
      (Replied (JObj [ ("explanation", JStr "Child near the pool") ])) init_world
    = (Ret (r, 200), w')
    ∧ Py.get r "danger_level" JNull = Ret (JStr "safe").
Proof.
  destruct (safety_check_missing_triggered (lib:=sample_lib)
              (JObj [ ("stream_url", JStr "https://cam.example/live");
                      ("condition", JStr "Is a child near water?") ])
              [ ("explanation", JStr "Child near the pool") ] init_world
              "https://cam.example/live" "Is a child near water?")
    as (r & w' & H & _ & Hd & _);
    [reflexivity|reflexivity|discriminate|discriminate|reflexivity|].
  by exists r, w'.
Defined.

(** ** [POST /api/webhook]: what a delivery leaves behind *)

Section WebhookMore.
Context {lib : PyLib}.
Import App.

Lemma event_type_exclusive type :
  Py.eq_str type "watch_triggered" = true →
  Py.eq_str type "job_stopped" || Py.eq_str type "job_completed"
  || Py.eq_str type "job_failed" = false.
Proof.
  destruct type; try done. simpl. intros H. apply String.eqb_eq in H. by subst.
Qed.

Ltac impossible_case :=
  match goal with
  | H : Py.eq_str ?a "watch_triggered" = true,
    H' : Py.eq_str ?a "job_stopped" || _ || _ = true |- _ =>
      rewrite (event_type_exclusive a H) in H'; discriminate
  | H : Py.get ?d _ _ = Raise _, H' : Py.get ?d _ _ = Ret _ |- _ =>
      destruct d; discriminate
  end.

Ltac run_webhook :=
  unfold webhook_receiver, bind, lift, ret, modify, read, utcnow_z, uuid8;
  cbv zeta; repeat case_match; simplify_eq/=; try impossible_case.

(** X7. A delivery that is answered is answered [{"status": "ok"}] with
    200, and its event record, with the type and the data of the payload,
    went into [webhook_events]; a delivery that raises leaves the logs and
    the job table as they were, so no alert is stored without its
    event. *)
Theorem webhook_receiver_acknowledges body w :
  match webhook_receiver body w with
  | (Ret resp, w') =>
      resp = (JObj [ ("status", JStr "ok") ], 200)
      ∧ ∃ rec,
          webhook_events w' = trim200 (insert0 rec (webhook_events w))
          ∧ Py.get rec "type" JNull
            = Py.get (Py.or_else body (JObj [])) "type" (JStr "unknown")
          ∧ Py.get rec "data" JNull
            = Py.get (Py.or_else body (JObj [])) "data" (JObj [])
  | (Raise _, w') =>
      alert_history w' = alert_history w
      ∧ webhook_events w' = webhook_events w
      ∧ digest_summaries w' = digest_summaries w
      ∧ active_monitors w' = active_monitors w
  end.
Proof.
  run_webhook; try done;
    (split; [reflexivity|]; eexists; split; [reflexivity|]; split; simpl; congruence).
Qed.

(** X8. A delivery of type "watch_triggered" that is answered stored one
    alert at the head of [alert_history]: it has the id of the event
    record logged with it, the source "webhook", latency 0 and a danger
    level that is one of the three tiers.  A delivery of any other type
    leaves [alert_history] alone. *)
Theorem webhook_receiver_alert body w resp type :
  (webhook_receiver body w).1 = Ret resp →
  Py.get (Py.or_else body (JObj [])) "type" (JStr "unknown") = Ret type →
  if Py.eq_str type "watch_triggered" then
    ∃ alert rec,
      alert_history (webhook_receiver body w).2 = insert0 alert (alert_history w)
      ∧ webhook_events (webhook_receiver body w).2
        = trim200 (insert0 rec (webhook_events w))
      ∧ Py.get alert "id" JNull = Py.get rec "id" JNull
      ∧ Py.get alert "source" JNull = Ret (JStr "webhook")
      ∧ Py.get alert "latency_ms" JNull = Ret (JNum 0)
      ∧ stored_alert alert
  else alert_history (webhook_receiver body w).2 = alert_history w.
Proof.
  intros Hr Ht. revert Hr.
  run_webhook; try done; try congruence; intros _.
  all: do 2 eexists; repeat (split; [reflexivity|]).
  all: do 2 eexists; split; [reflexivity|]; split; [reflexivity|].
  all: by eapply classify_danger_range.
Qed.

End WebhookMore.

Lemma webhook_receiver_alert_witness :
  ∃ alert rec,
    alert_history (App.webhook_receiver (lib:=sample_lib) triggered_event init_world).2
    = insert0 alert []
    ∧ Py.get alert "id" JNull = Py.get rec "id" JNull
    ∧ Py.get alert "danger_level" JNull = Ret (JStr "high").
Proof.
  pose proof (webhook_receiver_alert (lib:=sample_lib) triggered_event init_world
                (JObj [ ("status", JStr "ok") ], 200) (JStr "watch_triggered")
                eq_refl eq_refl) as (alert & rec & Ha & _ & Hid & _).
  exists alert, rec. split; [exact Ha|]. split; [exact Hid|].
  vm_compute in Ha. injection Ha as <-. reflexivity.
Defined.

(** ** The job table and the webhook.site token *)

Section MonitorMore.
Context {lib : PyLib}.
Import App.

Ltac run_route :=
  unfold safety_check, create_webhook_site_token, start_monitor, stop_monitor,
    webhook_receiver, clear_alerts, start_digest, mirror_summary,
    bind, lift, ret, modify, read, utcnow_z, uuid8;
  cbv zeta; repeat case_match; simplify_eq/=.

(** X9. Only [start_monitor] adds a job: every other request leaves the
    set of job ids of [active_monitors] exactly as it was, so a webhook or
    a stop for an unknown job creates no entry; and no request removes
    one. *)
Theorem job_ids_only_grow_by_start op w :
  dom (active_monitors w) ⊆ dom (active_monitors (exec op w))
  ∧ match op with
    | OpStartMonitor _ _ _ => True
    | _ => dom (active_monitors (exec op w)) = dom (active_monitors w)
    end.
Proof.
  assert (∀ w', active_monitors w' = active_monitors w →
                dom (active_monitors w) ⊆ dom (active_monitors w')
                ∧ dom (active_monitors w') = dom (active_monitors w)) as Hsame.
  { by intros w' ->. }
  destruct op; simpl.
  - apply Hsame. by run_route.
  - apply Hsame. by run_route.
  - split; [|done].
    destruct (start_monitor_monitors body url_root reply w)
      as [->|(key & entry & job_id & _ & _ & ->)]; [done|].
    rewrite dom_insert_L. apply union_subseteq_r.
  - destruct (stop_monitor_monitors body reply w) as [->|(job_id & ->)];
      [by split|]. by rewrite dom_alter_L.
  - destruct (webhook_receiver_monitors body w)
      as [->|(key & type & data & status & _ & _ & _ & _ & ->)]; [by split|].
    by rewrite dom_alter_L.
  - apply Hsame. by run_route.
  - apply Hsame. unfold start_digest, bind, lift, ret. cbv zeta.
    repeat case_match; simplify_eq/=; try done.
    apply (drain_unchanged active_monitors). intros. by run_route.
Qed.

(** X10. [stop_monitor] touches the table only after the upstream
    confirmed the cancellation: it answers 200 with the upstream result
    passed through, or it answers something else (400 for a missing job
    id, 502 for a failed call) or raises, and then the whole state is as
    before. *)
Theorem stop_monitor_needs_upstream body reply w :
  match stop_monitor body reply w with
  | (Ret (r, code), w') =>
      (code = 200 ∧ reply = Replied r) ∨ (code ≠ 200 ∧ w' = w)
  | (Raise _, w') => w' = w
  end.
Proof.
  run_route; try done;
    first [ left; split; reflexivity | right; split; [lia|reflexivity] ].
Qed.

(** X11. A confirmed stop of a known job sets its status to "stopped" and
    leaves every other job as it was. *)
Theorem stop_monitor_marks_stopped body result w job_id entry :
  Py.get (Py.or_else body (JObj [])) "job_id" (JStr "") = Ret (JStr job_id) →
  PyStr.strip job_id ≠ "" →
  active_monitors w !! KStr (PyStr.strip job_id) = Some entry →
  ∃ w',
    stop_monitor body (Replied result) w = (Ret (result, 200), w')
    ∧ active_monitors w' !! KStr (PyStr.strip job_id)
      = Some (Py.assoc_set "status" (JStr "stopped") entry)
    ∧ Py.assoc "status" (Py.assoc_set "status" (JStr "stopped") entry)
      = Some (JStr "stopped")
    ∧ ∀ key, key ≠ KStr (PyStr.strip job_id) →
             active_monitors w' !! key = active_monitors w !! key.
Proof.
  intros Hj Hne Hk. apply not_empty_iff in Hne.
  unfold stop_monitor, bind, lift, ret, modify. cbv zeta.
  rewrite Hj. simpl. rewrite Hne. eexists. split; [reflexivity|]. simpl.
  split; [by rewrite lookup_alter_eq, Hk|].
  split; [apply assoc_set_same|].
  intros key Hkey. by rewrite lookup_alter_ne.
Qed.

(** X12. A started monitor can be looked up under the job id of the
    upstream reply ("unknown" when the reply has none): the entry found is
    the body of the 200 answer, it carries the stripped stream URL and
    condition of the request and the status of the reply ("running" when
    the reply has none), and the entries under other ids are as before. *)
Theorem start_monitor_registers body url_root result w su c wu job_id key status :
  Py.get (Py.or_else body (JObj [])) "stream_url" (JStr "") = Ret (JStr su) →
  Py.get (Py.or_else body (JObj [])) "condition" (JStr "") = Ret (JStr c) →
  Py.get (Py.or_else body (JObj [])) "webhook_url" (JStr "") = Ret (JStr wu) →
  PyStr.strip su ≠ "" → PyStr.strip c ≠ "" →
  Py.get result "job_id" (JStr "unknown") = Ret job_id →
  Py.get result "status" (JStr "running") = Ret status →
  hash_key job_id = Ret key →
  ∃ entry w',
    start_monitor body url_root (Replied result) w = (Ret (JObj entry, 200), w')
    ∧ active_monitors w' !! key = Some entry
    ∧ Py.assoc "job_id" entry = Some job_id
    ∧ Py.assoc "stream_url" entry = Some (JStr (PyStr.strip su))
    ∧ Py.assoc "condition" entry = Some (JStr (PyStr.strip c))
    ∧ Py.assoc "status" entry = Some status
    ∧ ∀ key', key' ≠ key → active_monitors w' !! key' = active_monitors w !! key'.
Proof.
  intros Hsu Hc Hwu Hs Hcn Hj Hst Hk. apply not_empty_iff in Hs, Hcn.
  unfold start_monitor, bind, lift, ret, modify, read, utcnow_z. cbv zeta.
  rewrite Hsu, Hc, Hwu. simpl. rewrite Hs, Hcn. simpl.
  rewrite Hj, Hst. simpl. rewrite Hk. simpl.
  do 2 eexists. split; [reflexivity|]. simpl.
  split; [by rewrite lookup_insert_eq|]. repeat (split; [reflexivity|]).
  intros key' Hkey. by rewrite lookup_insert_ne.
Qed.

Lemma start_monitor_webhook_url_entry body url_root result w su c wu job_id key :
  Py.get (Py.or_else body (JObj [])) "stream_url" (JStr "") = Ret (JStr su) →
  Py.get (Py.or_else body (JObj [])) "condition" (JStr "") = Ret (JStr c) →
  Py.get (Py.or_else body (JObj [])) "webhook_url" (JStr "") = Ret (JStr wu) →
  PyStr.strip su ≠ "" → PyStr.strip c ≠ "" →
  Py.get result "job_id" (JStr "unknown") = Ret job_id →
  hash_key job_id = Ret key →
  let token_url := from_option id JNull (Py.assoc "url" (webhook_site_token w)) in
  (active_monitors (start_monitor body url_root (Replied result) w).2 !! key)
    ≫= Py.assoc "webhook_url"
  = Some (if negb (PyStr.is_empty (PyStr.strip wu)) then JStr (PyStr.strip wu)
          else if Py.truthy token_url then token_url
          else JStr (PyStr.rstrip_slash url_root +:+ "/api/webhook")).
Proof.
  intros Hsu Hc Hwu Hs Hcn Hj Hk token_url. apply not_empty_iff in Hs, Hcn.
  unfold start_monitor, bind, lift, ret, modify, read, utcnow_z. cbv zeta.
  rewrite Hsu, Hc, Hwu. simpl. rewrite Hs, Hcn. simpl.
  rewrite Hj. simpl. destruct result; try done. simpl. rewrite Hk. simpl.
  rewrite lookup_insert_eq. simpl. fold token_url.
  destruct (PyStr.is_empty (PyStr.strip wu)); simpl; [|done].
  by destruct (Py.truthy token_url).
Qed.


(** X13. Which webhook URL a started monitor gets: the one of the request
    when it is not blank; otherwise the URL of the webhook.site token when
    a token with a URL exists; otherwise the application's own
    [/api/webhook] under the root URL of the request, without a doubled
    slash. *)
Theorem start_monitor_webhook_url body url_root result w su c wu job_id key :
  Py.get (Py.or_else body (JObj [])) "stream_url" (JStr "") = Ret (JStr su) →
  Py.get (Py.or_else body (JObj [])) "condition" (JStr "") = Ret (JStr c) →
  Py.get (Py.or_else body (JObj [])) "webhook_url" (JStr "") = Ret (JStr wu) →
  PyStr.strip su ≠ "" → PyStr.strip c ≠ "" →
  Py.get result "job_id" (JStr "unknown") = Ret job_id →
  hash_key job_id = Ret key →
  let token_url := from_option id JNull (Py.assoc "url" (webhook_site_token w)) in
  (active_monitors (start_monitor body url_root (Replied result) w).2 !! key)
    ≫= Py.assoc "webhook_url"
  = Some (if negb (PyStr.is_empty (PyStr.strip wu)) then JStr (PyStr.strip wu)
          else if Py.truthy token_url then token_url
          else JStr (PyStr.rstrip_slash url_root +:+ "/api/webhook")).
Proof. apply start_monitor_webhook_url_entry. Qed.

(** X14. [create_webhook_site_token] never raises.  It answers 200 with
    the new token, which it stored and whose URL is the webhook.site base
    followed by the uuid of the reply; or it answers 502 with the state
    as before. *)
Theorem create_webhook_site_token_total reply w :
  ∃ r code w',
    create_webhook_site_token reply w = (Ret (r, code), w')
    ∧ ((code = 200
        ∧ r = JObj (webhook_site_token w')
        ∧ ∃ token_data uuid,
            reply = Replied token_data
            ∧ Py.get token_data "uuid" (JStr "") = Ret uuid
            ∧ Py.assoc "uuid" (webhook_site_token w') = Some uuid
            ∧ Py.assoc "url" (webhook_site_token w')
              = Some (JStr (WEBHOOK_SITE_BASE +:+ "/" +:+ format_str uuid)))
       ∨ (code = 502 ∧ w' = w)).
Proof.
  unfold create_webhook_site_token, bind, ret, modify. cbv zeta.
  destruct reply as [token_data|msg b|msg]; simpl;
    try (do 3 eexists; split; [reflexivity|]; right; by split).
  destruct token_data;
    try (do 3 eexists; split; [reflexivity|]; right; by split).
  simpl. do 3 eexists. split; [reflexivity|]. left. simpl.
  split; [done|]. split; [done|]. by do 2 eexists.
Qed.


(** X16. After a token was created, a monitor started without a webhook
    URL of its own is registered with the URL of the token. *)
Theorem token_url_used_by_start_monitor
    token_data uuid body url_root result w su c job_id key :
  Py.get token_data "uuid" (JStr "") = Ret uuid →
  Py.get (Py.or_else body (JObj [])) "stream_url" (JStr "") = Ret (JStr su) →
  Py.get (Py.or_else body (JObj [])) "condition" (JStr "") = Ret (JStr c) →
  Py.get (Py.or_else body (JObj [])) "webhook_url" (JStr "") = Ret (JStr "") →
  PyStr.strip su ≠ "" → PyStr.strip c ≠ "" →
  Py.get result "job_id" (JStr "unknown") = Ret job_id →
  hash_key job_id = Ret key →
  (active_monitors
     (start_monitor body url_root (Replied result)
        (create_webhook_site_token (Replied token_data) w).2).2 !! key)
    ≫= Py.assoc "webhook_url"
  = Some (JStr (WEBHOOK_SITE_BASE +:+ "/" +:+ format_str uuid)).
Proof.
  intros Hu Hsu Hc Hwu Hs Hcn Hj Hk.
  rewrite (start_monitor_webhook_url_entry body url_root result _ su c ""
             job_id key Hsu Hc Hwu Hs Hcn Hj Hk).
  unfold create_webhook_site_token, bind, ret, modify.
  destruct token_data; try done. simpl in *. by simplify_eq.
Qed.

End MonitorMore.

Lemma stop_monitor_marks_stopped_witness :
  ∃ w',
    App.stop_monitor stop_request
      (Replied (JObj [ ("status", JStr "cancelled") ])) monitored_world
    = (Ret (JObj [ ("status", JStr "cancelled") ], 200), w')
    ∧ active_monitors w' !! KStr "job-1"
      = Some (Py.assoc_set "status" (JStr "stopped") job_entry).
Proof.
  destruct (stop_monitor_marks_stopped stop_request
              (JObj [ ("status", JStr "cancelled") ]) monitored_world
              "job-1" job_entry) as (w' & H1 & H2 & _);
    [reflexivity|discriminate|vm_compute; reflexivity|].
  exists w'. split; [exact H1|exact H2].
Defined.

Lemma start_monitor_registers_witness :
  ∃ entry w',
    App.start_monitor (lib:=sample_lib) start_request "http://localhost:5001/"
      (Replied (JObj [ ("job_id", JStr "job-1") ])) init_world
    = (Ret (JObj entry, 200), w')
    ∧ active_monitors w' !! KStr "job-1" = Some entry
    ∧ Py.assoc "status" entry = Some (JStr "running").
Proof.
  destruct (start_monitor_registers (lib:=sample_lib) start_request
              "http://localhost:5001/" (JObj [ ("job_id", JStr "job-1") ])
              init_world "rtsp://cam.example/nursery" "Is a child climbing?" ""
              (JStr "job-1") (KStr "job-1") (JStr "running"))
    as (entry & w' & H1 & H2 & _ & _ & _ & H3 & _);
    [reflexivity|reflexivity|reflexivity|discriminate|discriminate
    |reflexivity|reflexivity|reflexivity|].
  by exists entry, w'.
Defined.

Lemma start_monitor_webhook_url_witness :
  (active_monitors
     (App.start_monitor (lib:=sample_lib) start_request "http://localhost:5001/"
        (Replied (JObj [ ("job_id", JStr "job-1") ])) init_world).2
     !! KStr "job-1") ≫= Py.assoc "webhook_url"
  = Some (JStr "http://localhost:5001/api/webhook").
Proof.
  rewrite (start_monitor_webhook_url (lib:=sample_lib) start_request
             "http://localhost:5001/" (JObj [ ("job_id", JStr "job-1") ])
             init_world "rtsp://cam.example/nursery" "Is a child climbing?" ""
             (JStr "job-1") (KStr "job-1"));
    [reflexivity|reflexivity|reflexivity|reflexivity|discriminate|discriminate
    |reflexivity|reflexivity].
Defined.


Lemma token_url_used_by_start_monitor_witness :
  (active_monitors
     (App.start_monitor (lib:=sample_lib) start_request "http://localhost:5001/"
        (Replied (JObj [ ("job_id", JStr "job-1") ]))
        (App.create_webhook_site_token (lib:=sample_lib)
           (Replied (JObj [ ("uuid", JStr "abc") ])) init_world).2).2
     !! KStr "job-1") ≫= Py.assoc "webhook_url"
  = Some (JStr "https://webhook.site/abc").
Proof.
  apply (token_url_used_by_start_monitor (lib:=sample_lib)
           (JObj [ ("uuid", JStr "abc") ]) (JStr "abc") start_request
           "http://localhost:5001/" (JObj [ ("job_id", JStr "job-1") ])
           init_world "rtsp://cam.example/nursery" "Is a child climbing?"
           (JStr "job-1") (KStr "job-1"));
    first [reflexivity|discriminate].
Defined.

(** ** Which request touches which store, and what the alert log holds *)

Section StoreMore.
Context {lib : PyLib}.
Import App.

Ltac run_op :=
  unfold safety_check, create_webhook_site_token, start_monitor, stop_monitor,
    webhook_receiver, clear_alerts, start_digest, mirror_summary,
    bind, lift, ret, modify, read, utcnow_z, uuid8;
  cbv zeta; repeat case_match; simplify_eq/=.

Lemma digest_run_unchanged {B} (f : World → B) body lines fin reads w :
  (∀ stream_url line w, f (mirror_summary stream_url line w).2 = f w) →
  f (exec (OpDigest body lines fin reads) w) = f w.
Proof.
  intros Hf. simpl. unfold start_digest, bind, lift, ret. cbv zeta.
  repeat case_match; simplify_eq/=; try done.
  by apply drain_unchanged.
Qed.

(** X17. Every request writes only to its own stores.  A check and the
    clearing of the alerts touch nothing but [alert_history]; starting and
    stopping a monitor nothing but [active_monitors]; the creation of a
    token nothing but the token; the digest relay nothing but
    [digest_summaries]; a webhook delivery can change the alerts, the
    event log and the job table, but neither the digests nor the token. *)
Theorem requests_keep_to_their_stores op w :
  let w' := exec op w in
  match op with
  | OpSafetyCheck _ _ | OpClearAlerts =>
      webhook_events w' = webhook_events w
      ∧ digest_summaries w' = digest_summaries w
      ∧ active_monitors w' = active_monitors w
      ∧ webhook_site_token w' = webhook_site_token w
  | OpCreateToken _ =>
      alert_history w' = alert_history w
      ∧ webhook_events w' = webhook_events w
      ∧ digest_summaries w' = digest_summaries w
      ∧ active_monitors w' = active_monitors w
  | OpStartMonitor _ _ _ | OpStopMonitor _ _ =>
      alert_history w' = alert_history w
      ∧ webhook_events w' = webhook_events w
      ∧ digest_summaries w' = digest_summaries w
      ∧ webhook_site_token w' = webhook_site_token w
  | OpWebhook _ =>
      digest_summaries w' = digest_summaries w
      ∧ webhook_site_token w' = webhook_site_token w
  | OpDigest _ _ _ _ =>
      alert_history w' = alert_history w
      ∧ webhook_events w' = webhook_events w
      ∧ active_monitors w' = active_monitors w
      ∧ webhook_site_token w' = webhook_site_token w
  end.
Proof.
  intros w'. subst w'. destruct op;
    try (simpl; repeat split; by run_op).
  repeat split; apply digest_run_unchanged; intros; by run_op.
Qed.

Lemma stored_alert_tier items tier triggered condition explanation :
  classify_danger triggered condition explanation = Ret tier →
  Py.assoc "danger_level" items = Some (JStr tier) →
  stored_alert (JObj items).
Proof. intros Hc Ha. exists items, tier. eauto using classify_danger_range. Qed.

Lemma safety_check_alert_stored body reply w :
  alert_history (safety_check body reply w).2 = alert_history w
  ∨ ∃ r, stored_alert r
         ∧ alert_history (safety_check body reply w).2
           = trim200 (insert0 r (alert_history w)).
Proof.
  run_op; eauto.
  right. eexists. split; [|reflexivity]. by eapply stored_alert_tier.
Qed.

Lemma webhook_receiver_alert_stored body w :
  alert_history (webhook_receiver body w).2 = alert_history w
  ∨ ∃ r, stored_alert r
         ∧ alert_history (webhook_receiver body w).2
           = insert0 r (alert_history w).
Proof.
  run_op; eauto;
    right; eexists; (split; [|reflexivity]); by eapply stored_alert_tier.
Qed.

Lemma exec_alerts_stored op w :
  Forall stored_alert (alert_history w) →
  Forall stored_alert (alert_history (exec op w)).
Proof.
  intros Hw. destruct op.
  - simpl. destruct (safety_check_alert_stored body reply w) as [->|(r & Hr & ->)];
      [done|].
    rewrite trim200_insert0. constructor; [done|]. by apply Forall_take.
  - simpl. by replace (alert_history _) with (alert_history w) by (by run_op).
  - simpl. by replace (alert_history (start_monitor _ _ _ _).2)
      with (alert_history w) by (by run_op).
  - simpl. by replace (alert_history (stop_monitor _ _ _).2)
      with (alert_history w) by (by run_op).
  - simpl. destruct (webhook_receiver_alert_stored body w) as [->|(r & Hr & ->)];
      [done|]. by constructor.
  - simpl. constructor.
  - rewrite digest_run_unchanged; [done|]. intros. by run_op.
Qed.

Lemma exec_all_alerts_stored ops :
  ∀ w, Forall stored_alert (alert_history w) →
       Forall stored_alert (alert_history (exec_all ops w)).
Proof.
  induction ops as [|op ops IH]; intros w Hw; [done|].
  apply IH. by apply exec_alerts_stored.
Qed.

(** X18. Whatever requests were served since the start, every record of
    [alert_history] is an object whose danger level is "safe", "medium"
    or "high". *)
Theorem alerts_always_have_a_tier ops :
  Forall stored_alert (alert_history (exec_all ops init_world)).
Proof. apply exec_all_alerts_stored. constructor. Qed.

Lemma eq_str_true v s : Py.eq_str v s = true ↔ v = JStr s.
Proof.
  destruct v; simpl; try (split; [done|intros [=]]).
  rewrite String.eqb_eq. split; [by intros ->|by intros [= ->]].
Qed.

Lemma has_level_spec level a :
  has_level level a = true ↔ Py.get a "danger_level" JNull = Ret (JStr level).
Proof.
  unfold has_level. destruct (Py.get a "danger_level" JNull) as [v|e].
  - rewrite eq_str_true. split; [by intros ->|by intros [= ->]].
  - split; done.
Qed.

Lemma where_eq_stored level l :
  Forall stored_alert l →
  PySeq.where_eq "danger_level" level l
  = Ret (filter (λ a, has_level level a = true) l).
Proof.
  induction 1 as [|a l (items & tier & -> & Ht & _) _ IH]; [done|].
  cbn [PySeq.where_eq]. rewrite IH.
  assert (Py.get (JObj items) "danger_level" JNull = Ret (JStr tier)) as Hg
    by (simpl; by rewrite Ht).
  rewrite Hg. cbn [obind].
  assert (has_level level (JObj items) = Py.eq_str (JStr tier) level) as Hl
    by (unfold has_level; by rewrite Hg).
  destruct (Py.eq_str (JStr tier) level).
  - by rewrite filter_cons_True.
  - by rewrite filter_cons_False by (rewrite Hl; discriminate).
Qed.

(** X19. [GET /api/alerts] never fails, whatever requests were served
    before, and its answer is determined: with a level it is the list of
    the alerts of [alert_history] whose danger level is that level, each
    as often and in the order it occurs in the log, cut after its first
    100 records; with no level, or a blank one, it is the first 100
    records of the log. *)
Theorem get_alerts_filters ops level_arg :
  let w := exec_all ops init_world in
  let level := PyStr.strip level_arg in
  get_alerts level_arg w
  = Ret (JArr (take 100
                 (if decide (level = "") then alert_history w
                  else filter (λ a, has_level level a = true) (alert_history w))),
         200)
  ∧ ∀ a, has_level level a = true
         ↔ Py.get a "danger_level" JNull = Ret (JStr level).
Proof.
  intros w level. split; [|apply has_level_spec].
  unfold get_alerts. fold level.
  destruct (decide (level = "")) as [He|Hne].
  - by rewrite He.
  - apply not_empty_iff in Hne. rewrite Hne. cbn [negb].
    rewrite where_eq_stored by (apply exec_all_alerts_stored; constructor).
    done.
Qed.

End StoreMore.

Lemma get_alerts_filters_witness :
  ∃ alert,
    App.get_alerts " high "
      (App.exec_all (lib:=sample_lib)
         [ App.OpWebhook triggered_event;
           App.OpWebhook (JObj [ ("type", JStr "watch_triggered") ]) ]
         init_world)
    = Ret (JArr [alert], 200)
    ∧ Py.get alert "danger_level" JNull = Ret (JStr "high").
Proof.
  destruct (get_alerts_filters (lib:=sample_lib)
              [ App.OpWebhook triggered_event;
                App.OpWebhook (JObj [ ("type", JStr "watch_triggered") ]) ]
              " high ") as [H _].
  eexists. split; [rewrite H; vm_compute; reflexivity|]. reflexivity.
Defined.

(** ** The two digest relays *)

Section RelayMore.
Context {lib : PyLib}.
Import App.

Lemma drain_get_resume n line rest fin :
  drain_get n (AtLine line rest fin) = drain_get n (Fresh rest fin).
Proof. by destruct n. Qed.

Lemma drain_get_frames fin lines :
  ∀ n, length lines + 2 ≤ n →
  drain_get n (Fresh lines fin)
  = map (λ l, l +:+ newline) (filter (λ l, l ≠ "") lines) ++ closing_frames fin.
Proof.
  induction lines as [|line rest IH]; intros n Hn.
  - destruct n as [|[|n]]; simpl in Hn; try lia. by destruct fin.
  - simpl in Hn. destruct (decide (line = "")) as [->|Hne].
    + rewrite filter_cons_False by naive_solver.
      rewrite <- (IH n) by lia. by destruct n.
    + rewrite filter_cons_True by done.
      destruct n as [|n]; [lia|]. simpl.
      unfold pull_get. simpl. destruct line; [done|]. simpl.
      by rewrite drain_get_resume, IH by lia.
Qed.

(** X20. The relay of the GET variant forwards every upstream line that is
    not empty, in order and with one newline each, and closes with the
    error frame when the upstream broke, whatever the lines carry; and
    the mirroring relay sends exactly the same frames as long as every
    JSON payload is an object. *)
Theorem relay_get_forwards_everything stream_url lines fin w :
  relay_get lines fin
  = map (λ l, l +:+ newline) (filter (λ l, l ≠ "") lines) ++ closing_frames fin
  ∧ (Forall object_payload lines →
     (relay stream_url lines fin w).1 = relay_get lines fin).
Proof.
  assert (relay_get lines fin
          = map (λ l, l +:+ newline) (filter (λ l, l ≠ "") lines)
            ++ closing_frames fin) as Hget
    by (apply drain_get_frames; lia).
  split; [done|]. intros Hobj. rewrite Hget. apply drain_frames; [done|lia].
Qed.

(** X21. A client that stops reading gets a prefix of the full stream: the
    frames of the first [n] reads are the first [n] frames of any longer
    run.  And the mirroring lags one read behind: after the read that
    sent a line, nothing of that line is stored yet. *)
Theorem relay_reads_are_a_prefix stream_url :
  (∀ n m s w,
      (drain n stream_url s w).1 = take n (drain (n + m) stream_url s w).1)
  ∧ (∀ line rest fin w,
        line ≠ "" →
        drain 1 stream_url (Fresh (line :: rest) fin) w
        = ([line +:+ newline], w)).
Proof.
  split.
  - induction n as [|n IH]; intros m s w; [done|]. simpl.
    destruct (generate_next stream_url s w) as [[[frame|] s'] w']; [|done].
    specialize (IH m s' w').
    destruct (drain n _ _ _), (drain (n + m) _ _ _). simpl in *. by rewrite IH.
  - intros line rest fin w Hne. simpl. by rewrite pull_line.
Qed.

Lemma summary_of_blank : summary_of "" = None.
Proof. reflexivity. Qed.

Lemma mirror_summary_record stream_url line w :
  object_payload line →
  ∃ w' recs,
    mirror_summary stream_url line w = (Ret (), w')
    ∧ digest_summaries w' = recs ++ digest_summaries w
    ∧ map (λ r, Py.get r "summary" JNull) recs
      = map Ret (option_list (summary_of line))
    ∧ Forall (λ r, Py.get r "stream_url" JNull = Ret (JStr stream_url)) recs.
Proof.
  intros Hobj. unfold mirror_summary, summary_of.
  destruct (PyStr.startswith "data:" line) eqn:Hd;
    [|by exists w, []].
  destruct (json_loads _) as [v|] eqn:Hv; [|by exists w, []].
  destruct (Hobj Hd v Hv) as [items ->].
  unfold bind, lift, ret, modify, utcnow_z. simpl.
  destruct (Py.eq_str _ "summary"); [|by exists w, []].
  eexists _, [_]. split; [reflexivity|]. simpl.
  split; [done|]. split; [done|]. by repeat constructor.
Qed.

Lemma drain_summaries stream_url fin lines :
  Forall object_payload lines →
  ∀ n w, length lines + 2 ≤ n →
  ∃ recs,
    digest_summaries (drain n stream_url (Fresh lines fin) w).2
    = recs ++ digest_summaries w
    ∧ map (λ r, Py.get r "summary" JNull) recs
      = map Ret (reverse (omap summary_of lines))
    ∧ Forall (λ r, Py.get r "stream_url" JNull = Ret (JStr stream_url)) recs.
Proof.
  induction 1 as [|line rest Hline _ IH]; intros n w Hn.
  - destruct n as [|[|n]]; simpl in Hn; try lia. rewrite drain_end.
    by exists [].
  - simpl in Hn. destruct (decide (line = "")) as [->|Hne].
    + rewrite drain_blank. cbn [omap list_omap]. rewrite summary_of_blank.
      apply IH. lia.
    + destruct n as [|[|n]]; try lia. rewrite drain_line by done. cbn [snd].
      destruct (mirror_summary_record stream_url line w Hline)
        as (w' & recs1 & Hm & Hd1 & Hs1 & Hu1).
      rewrite (drain_resume _ _ _ _ _ _ _ Hm).
      destruct (IH (S n) w') as (recs2 & Hd2 & Hs2 & Hu2); [lia|].
      exists (recs2 ++ recs1). rewrite Hd2, Hd1, app_assoc. split; [done|].
      split; [|by apply Forall_app].
      rewrite map_app, Hs2, Hs1. cbn [omap list_omap].
      destruct (summary_of line); simpl; [|by rewrite app_nil_r].
      by rewrite reverse_cons, map_app.
Qed.

(** X22. What the relay mirrors.  Run to its end over lines whose JSON
    payloads are objects, it adds to the front of [digest_summaries] one
    record for each [data:] line of type "summary", the newest first;
    each record carries the [summary] member of its payload (the payload
    text when the member is missing) and the stream URL of the request.
    Lines of any other kind add nothing. *)
Theorem relay_mirrors_summaries stream_url lines fin w :
  Forall object_payload lines →
  ∃ recs,
    digest_summaries (relay stream_url lines fin w).2
    = recs ++ digest_summaries w
    ∧ map (λ r, Py.get r "summary" JNull) recs
      = map Ret (reverse (omap summary_of lines))
    ∧ Forall (λ r, Py.get r "stream_url" JNull = Ret (JStr stream_url)) recs.
Proof. intros H. apply drain_summaries; [done|lia]. Qed.

End RelayMore.

Lemma relay_get_forwards_everything_witness :
  (App.relay (lib:=sample_lib) "https://cam.example/live"
     ["event: digest"; ""; summary_line] (Broken "Read timed out.") init_world).1
  = App.relay_get ["event: digest"; ""; summary_line] (Broken "Read timed out.").
Proof.
  apply (relay_get_forwards_everything (lib:=sample_lib)).
  repeat constructor; intros Hd v Hv; vm_compute in Hd, Hv;
    first [discriminate | injection Hv as <-; eauto].
Defined.

Lemma relay_reads_are_a_prefix_witness :
  App.drain (lib:=sample_lib) 1 "https://cam.example/live"
    (App.Fresh [summary_line] Exhausted) init_world
  = ([summary_line +:+ newline], init_world).
Proof.
  apply (relay_reads_are_a_prefix (lib:=sample_lib)). discriminate.
Defined.

Lemma relay_mirrors_summaries_witness :
  ∃ recs,
    digest_summaries
      (App.relay (lib:=sample_lib) "https://cam.example/live"
         [summary_line; "data: [DONE]"] Exhausted init_world).2
    = recs ++ []
    ∧ map (λ r, Py.get r "summary" JNull) recs = [Ret (JStr "All calm")].
Proof.
  destruct (relay_mirrors_summaries (lib:=sample_lib) "https://cam.example/live"
              [summary_line; "data: [DONE]"] Exhausted init_world)
    as (recs & H1 & H2 & _).
  - repeat constructor; intros Hd v Hv; vm_compute in Hd, Hv;
      first [discriminate | injection Hv as <-; eauto].
  - exists recs. split; [exact H1|exact H2].
Defined.

(** ** The routes that only read *)

Section ReadMore.
Context {lib : PyLib}.
Import App.

(** X23. [POST /api/validate-stream] answers 400 for a missing or blank
    stream URL, whatever the upstream would say; otherwise, whenever the
    client's [validate_stream] returns, it answers 200 with that result,
    so a stream that cannot be reached is reported with status 200 and
    [valid] false. *)
Theorem validate_stream_route_answers body reply su :
  Py.get (Py.or_else body (JObj [])) "stream_url" (JStr "") = Ret (JStr su) →
  (PyStr.strip su = "" →
   validate_stream body reply = Ret (error_body "stream_url is required", 400))
  ∧ (PyStr.strip su ≠ "" →
     (∀ result, TrioClient.validate_stream reply = Ret result →
                validate_stream body reply = Ret (result, 200))
     ∧ ∀ msg, validate_stream body (RequestException msg)
              = Ret (JObj [ ("valid", JBool false); ("message", JStr msg) ], 200)).
Proof.
  intros Hsu. unfold validate_stream. cbv zeta. rewrite Hsu. simpl. split.
  - by intros ->.
  - intros Hne%not_empty_iff. rewrite Hne. split; [|done].
    by intros result ->.
Qed.

(** X24. [GET /api/webhook-site/events] answers an empty event list with
    status 200, and does not raise, both when no token with a uuid exists
    (the reply of webhook.site is then not looked at) and when the poll of
    webhook.site fails (the answer then also carries the error text). *)
Theorem site_events_empty reply w :
  (Py.truthy (from_option id JNull (Py.assoc "uuid" (webhook_site_token w))) = false →
   get_webhook_site_events reply w
   = Ret (JObj [ ("events", JArr []); ("total", JNum 0) ], 200))
  ∧ (Py.truthy (from_option id JNull (Py.assoc "uuid" (webhook_site_token w))) = true →
     ∀ msg, failure reply msg →
     get_webhook_site_events reply w
     = Ret (JObj [ ("events", JArr []); ("total", JNum 0); ("error", JStr msg) ],
            200)).
Proof.
  unfold get_webhook_site_events. cbv zeta. split.
  - intros ->. by rewrite orb_true_r.
  - intros Hu msg Hf. rewrite Hu.
    assert (Py.truthy (JObj (webhook_site_token w)) = true) as ->.
    { destruct (webhook_site_token w); [done|done]. }
    simpl. by destruct Hf as [[b ->] | ->].
Qed.

Lemma each_Forall2 {A B} (f : A → outcome B) l ys :
  PySeq.each f l = Ret ys → Forall2 (λ x y, f x = Ret y) l ys.
Proof.
  revert ys. induction l as [|x l IH]; intros ys; simpl.
  - intros [= <-]. constructor.
  - destruct (f x) as [y|] eqn:Hx; simpl; [|done].
    destruct (PySeq.each f l) as [ys'|]; simpl; [|done].
    intros [= <-]. constructor; [done|by apply IH].
Qed.

(** X25. When webhook.site lists its requests in an array and the route
    answers, the answer has one event for each listed request, in the
    same order, each built from its request alone, and the total of the
    reply (0 when it has none). *)
Theorem site_events_one_per_request raw req_items w r code :
  Py.get raw "data" (JArr []) = Ret (JArr req_items) →
  Py.truthy (from_option id JNull (Py.assoc "uuid" (webhook_site_token w))) = true →
  get_webhook_site_events (Replied raw) w = Ret (r, code) →
  ∃ events total,
    r = JObj [ ("events", JArr events); ("total", total) ]
    ∧ code = 200
    ∧ Py.get raw "total" (JNum 0) = Ret total
    ∧ length events = length req_items
    ∧ Forall2 (λ req_item event, site_event req_item = Ret event) req_items events.
Proof.
  intros Hd Hu. unfold get_webhook_site_events. cbv zeta. rewrite Hu.
  assert (Py.truthy (JObj (webhook_site_token w)) = true) as ->.
  { destruct (webhook_site_token w); [done|done]. }
  simpl. rewrite Hd. simpl.
  destruct (PySeq.each site_event req_items) as [events|] eqn:He; [|done].
  simpl. destruct (Py.get raw "total" (JNum 0)) as [total|]; [|done].
  simpl. intros [= <- <-]. exists events, total.
  apply each_Forall2 in He. repeat split; try done.
  symmetry. by eapply Forall2_length.
Qed.

(** X26. Every event the route builds names the request it came from and
    has a danger level: "info" unless its type is "watch_triggered", and
    then one of the three tiers of the classifier. *)
Theorem site_event_fields req_item event :
  site_event req_item = Ret event →
  Py.get event "webhook_request_id" JNull = Py.get req_item "uuid" (JStr "")
  ∧ ∃ type danger,
      Py.get event "type" JNull = Ret type
      ∧ Py.get event "danger_level" JNull = Ret (JStr danger)
      ∧ (if Py.eq_str type "watch_triggered"
         then In danger ["safe"; "medium"; "high"]
         else danger = "info").
Proof.
  unfold site_event. cbv zeta. unfold obind.
  repeat case_match; simplify_eq/=; try done; intros [= <-]; simpl.
  all: split; [congruence|]; do 2 eexists; split; [reflexivity|];
    split; [reflexivity|].
  all: try match goal with
           | H : Py.eq_str ?t _ = _ |- context [Py.eq_str ?t _] => rewrite H
           end.
  all: first [ reflexivity | by eapply classify_danger_range ].
Qed.

(** X27. A recorded request whose content is not JSON is not an error: it
    gives an event of type "unknown" with danger level "info" and empty
    fields. *)
Theorem site_event_malformed_content req_item content uuid :
  Py.get req_item "content" (JStr "") = Ret (JStr content) →
  content ≠ "" →
  json_loads content = None →
  Py.get req_item "uuid" (JStr "") = Ret (JStr uuid) →
  ∃ event,
    site_event req_item = Ret event
    ∧ Py.get event "id" JNull = Ret (JStr (PyStr.take 8 uuid))
    ∧ Py.get event "type" JNull = Ret (JStr "unknown")
    ∧ Py.get event "danger_level" JNull = Ret (JStr "info")
    ∧ Py.get event "explanation" JNull = Ret (JStr "")
    ∧ Py.get event "triggered" JNull = Ret (JBool false).
Proof.
  intros Hc Hne%not_empty_iff Hl Hu. unfold site_event. cbv zeta.
  rewrite Hc. simpl. rewrite Hne. simpl. rewrite Hl. simpl.
  rewrite Hu. simpl. destruct req_item; try done. simpl.
  eexists. split; [reflexivity|]. by repeat split.
Qed.

(** X28. [start_monitor_sse] yields one event for each line that starts
    with [data:] and nothing for any other line, in the order of the
    lines: the events of a stream cut in two are those of the first part
    followed by those of the second. *)
Theorem start_monitor_sse_events lines more :
  length (TrioClient.start_monitor_sse lines)
  = length (filter (λ l, PyStr.startswith "data:" l = true) lines)
  ∧ TrioClient.start_monitor_sse (lines ++ more)
    = TrioClient.start_monitor_sse lines ++ TrioClient.start_monitor_sse more.
Proof.
  unfold TrioClient.start_monitor_sse. split; [|apply omap_app].
  induction lines as [|line rest IH]; [done|]. cbn [omap list_omap].
  unfold TrioClient.monitor_event at 1.
  destruct (PyStr.startswith "data:" line) eqn:Hd.
  - rewrite filter_cons_True by done.
    assert (negb (PyStr.is_empty line) = true) as -> by by destruct line.
    simpl. destruct (json_loads _); simpl; by rewrite IH.
  - rewrite filter_cons_False by (by rewrite Hd). rewrite andb_false_r. apply IH.
Qed.

End ReadMore.

Lemma validate_stream_route_answers_witness :
  App.validate_stream (JObj [ ("stream_url", JStr "https://cam.example/live") ])
    (RequestException "Read timed out.")
  = Ret (JObj [ ("valid", JBool false); ("message", JStr "Read timed out.") ], 200).
Proof.
  destruct (validate_stream_route_answers
              (JObj [ ("stream_url", JStr "https://cam.example/live") ])
              (RequestException "Read timed out.") "https://cam.example/live")
    as (_ & H); [reflexivity|].
  apply H. discriminate.
Defined.

Lemma site_events_empty_witness :
  App.get_webhook_site_events (lib:=sample_lib)
    (RequestException "Read timed out.") init_world
  = Ret (JObj [ ("events", JArr []); ("total", JNum 0) ], 200)
  ∧ App.get_webhook_site_events (lib:=sample_lib)
      (RequestException "Read timed out.") token_world
    = Ret (JObj [ ("events", JArr []); ("total", JNum 0);
                  ("error", JStr "Read timed out.") ], 200).
Proof.
  split.
  - apply (site_events_empty (lib:=sample_lib)). reflexivity.
  - apply (site_events_empty (lib:=sample_lib)); [reflexivity|].
    right. reflexivity.
Defined.

Lemma site_events_one_per_request_witness :
  ∃ events total,
    App.get_webhook_site_events (lib:=sample_lib)
      (Replied (JObj [ ("data", JArr [site_request]); ("total", JNum 1) ]))
      token_world
    = Ret (JObj [ ("events", JArr events); ("total", total) ], 200)
    ∧ length events = 1.
Proof.
  destruct (App.get_webhook_site_events (lib:=sample_lib)
              (Replied (JObj [ ("data", JArr [site_request]); ("total", JNum 1) ]))
              token_world) as [[r code]|e] eqn:E; [|vm_compute in E; discriminate].
  destruct (site_events_one_per_request (lib:=sample_lib)
              (JObj [ ("data", JArr [site_request]); ("total", JNum 1) ])
              [site_request] token_world r code eq_refl eq_refl E)
    as (events & total & -> & -> & _ & Hlen & _).
  by exists events, total.
Defined.

Lemma site_event_fields_witness :
  ∃ event,
    App.site_event (lib:=sample_lib) site_request = Ret event
    ∧ Py.get event "webhook_request_id" JNull = Ret (JStr "0123456789").
Proof.
  destruct (App.site_event (lib:=sample_lib) site_request) as [event|e] eqn:E;
    [|vm_compute in E; discriminate].
  exists event. split; [reflexivity|].
  apply (site_event_fields (lib:=sample_lib) site_request event E).
Defined.

Lemma site_event_malformed_content_witness :
  ∃ event,
    App.site_event (lib:=sample_lib) site_request = Ret event
    ∧ Py.get event "id" JNull = Ret (JStr "01234567")
    ∧ Py.get event "type" JNull = Ret (JStr "unknown")
    ∧ Py.get event "danger_level" JNull = Ret (JStr "info").
Proof.
  destruct (site_event_malformed_content (lib:=sample_lib) site_request
              "not json" "0123456789")
    as (event & H1 & H2 & H3 & H4 & _);
    [reflexivity|discriminate|reflexivity|reflexivity|].
  by exists event.
Defined.

(** ** The classifier reads and writes no state *)

Section ClassifierState.
Context {lib : PyLib}.
Import App.

(** Run in a program state, the body of [classify_danger] computes the
    value of the function and hands the state back as it got it: it is
    the call [lift (classify_danger ...)] the handlers make. *)
Lemma classify_danger_in_state_pure triggered condition explanation w :
  classify_danger_in_state triggered condition explanation w
  = (classify_danger triggered condition explanation, w).
Proof.
  unfold classify_danger_in_state, classify_danger, bind, lift, ret.
  destruct (negb (Py.truthy triggered)); [done|].
  destruct (Py.lower explanation) as [lower_exp|e]; [|done].
  by destruct (existsb _ _).
Qed.

(** What a 200 answer of [safety_check] says about the danger level: it is
    the classification of the reply's [triggered] and [explanation]. *)
Lemma safety_check_tier body reply w r w' :
  safety_check body reply w = (Ret (r, 200), w') →
  ∃ result triggered condition explanation tier,
    reply = Replied result
    ∧ Py.get result "triggered" (JBool false) = Ret triggered
    ∧ Py.get result "explanation" (JStr "") = Ret explanation
    ∧ classify_danger triggered condition explanation = Ret tier
    ∧ Py.get r "danger_level" JNull = Ret (JStr tier).
Proof.
  unfold safety_check, bind, lift, ret, modify, read, utcnow_z, uuid8.
  cbv zeta. repeat case_match; simplify_eq/=; try done.
  intros [= <- <-]. do 5 eexists. repeat split; eauto.
Qed.

(** C8. [classify_danger] is deterministic, has no side effects and
    ignores its condition.  With the same [triggered] and [explanation],
    any two conditions give the same result.  Run in any two program
    states, with any two conditions, its body gives the same result, and
    it leaves the state it ran in exactly as it was, also when it raises;
    it is the call the handlers make.  And at the route that uses it: two
    checks with the same request and the same upstream reply, served in
    any two states, answer with the same danger level. *)
Theorem classify_danger_deterministic :
  (∀ triggered explanation c1 c2,
      classify_danger triggered c1 explanation
      = classify_danger triggered c2 explanation)
  ∧ (∀ triggered explanation c1 c2 w1 w2,
        (classify_danger_in_state triggered c1 explanation w1).1
        = (classify_danger_in_state triggered c2 explanation w2).1
        ∧ (classify_danger_in_state triggered c1 explanation w1).2 = w1)
  ∧ (∀ triggered condition explanation w,
        classify_danger_in_state triggered condition explanation w
        = lift (classify_danger triggered condition explanation) w)
  ∧ (∀ body reply w1 w2 r1 r2 w1' w2',
        safety_check body reply w1 = (Ret (r1, 200), w1') →
        safety_check body reply w2 = (Ret (r2, 200), w2') →
        Py.get r1 "danger_level" JNull = Py.get r2 "danger_level" JNull).
Proof.
  split; [intros; apply classify_danger_ignores_condition|].
  split; [intros; by rewrite !classify_danger_in_state_pure|].
  split; [intros; apply classify_danger_in_state_pure|].
  intros body reply w1 w2 r1 r2 w1' w2' H1 H2.
  destruct (safety_check_tier _ _ _ _ _ H1)
    as (res1 & t1 & c1 & e1 & tier1 & -> & Ht1 & He1 & Hc1 & ->).
  destruct (safety_check_tier _ _ _ _ _ H2)
    as (res2 & t2 & c2 & e2 & tier2 & [= <-] & Ht2 & He2 & Hc2 & ->).
  assert (t1 = t2) as -> by congruence.
  assert (e1 = e2) as -> by congruence.
  rewrite (classify_danger_ignores_condition t2 e2 c1 c2) in Hc1. congruence.
Qed.

End ClassifierState.

Lemma classify_danger_deterministic_witness :
  ∃ r1 r2 w1' w2',
    App.safety_check (lib:=sample_lib)
      (JObj [ ("stream_url", JStr "https://cam.example/live");
              ("condition", JStr "Is a child near water?") ])
      (Replied (JObj [ ("triggered", JBool true);
                       ("explanation", JStr "Child near pool edge") ]))
      init_world = (Ret (r1, 200), w1')
    ∧ App.safety_check (lib:=sample_lib)
        (JObj [ ("stream_url", JStr "https://cam.example/live");
                ("condition", JStr "Is a child near water?") ])
        (Replied (JObj [ ("triggered", JBool true);
                         ("explanation", JStr "Child near pool edge") ]))
        monitored_world = (Ret (r2, 200), w2')
    ∧ r1 ≠ r2
    ∧ Py.get r1 "danger_level" JNull = Py.get r2 "danger_level" JNull.
Proof.
  do 4 eexists.
  split; [vm_compute; reflexivity|]. split; [vm_compute; reflexivity|].
  split; [discriminate|].
  destruct (classify_danger_deterministic (lib:=sample_lib)) as (_ & _ & _ & H).
  eapply (H (JObj [ ("stream_url", JStr "https://cam.example/live");
                    ("condition", JStr "Is a child near water?") ])
            (Replied (JObj [ ("triggered", JBool true);
                             ("explanation", JStr "Child near pool edge") ]))
            init_world monitored_world);
    vm_compute; reflexivity.
Defined.
